(** * twlc: a leveled logger writing to the console and to a dated log file

    A shallow embedding of [twlc.go].  Go strings are [string]s, the
    [*Twlc] receiver is a record held in the state of a small
    state-and-exit monad, and the operating system (files, clock, standard
    streams) is an explicit [World] whose failures are decided by oracle
    tables.  Every system call a function performs is recorded, in order,
    in the trace of events of its outcome. *)

From stdpp Require Import base option list strings gmap.
From Stdlib Require Import Ascii String ZArith Lia.

Local Open Scope Z_scope.
Local Open Scope nat_scope.

(** ** Strings *)

Definition ESC : string := String "027"%char "".
Definition NL : string := String "010"%char "".

(** [strings.HasSuffix(s, "\n")], as [log.Output] tests it
    ([len(s) == 0 || s[len(s)-1] != '\n'] is its negation). *)
Fixpoint endsWithNewline (s : string) : bool :=
  match s with
  | EmptyString => false
  | String c EmptyString => bool_decide (c = "010"%char)
  | String _ s' => endsWithNewline s'
  end.

(** ** Decimal rendering

    [itoa] of package [log] (and [appendInt] of package [time]): the
    decimal digits of [i], padded with zeros on the left up to [wid]
    digits.  The Go loop [for i >= 10 || wid > 1] strictly decreases
    [i + wid], which is the fuel given to [itoa_rev]; the digits come
    out least significant first. *)

Definition digit (d : nat) : ascii := ascii_of_nat (48 + d).

Fixpoint itoa_rev (fuel i wid : nat) : list ascii :=
  match fuel with
  | O => [digit i]
  | S fuel' =>
      if (10 <=? i) || (1 <? wid)
      then digit (i mod 10) :: itoa_rev fuel' (i / 10) (wid - 1)
      else [digit i]
  end.

Definition itoa (i wid : nat) : string :=
  string_of_list_ascii (rev (itoa_rev (i + wid) i wid)).

(** The value denoted by a list of digits, least significant first. *)
Fixpoint value_rev (ds : list ascii) : nat :=
  match ds with
  | [] => 0
  | d :: ds' => (nat_of_ascii d - 48) + 10 * value_rev ds'
  end.

(** ** Time *)

(** What [time.Now()] returns, reduced to the calendar fields the program
    prints. *)
Record Time := mkTime {
  Year : nat; Month : nat; Day : nat;
  Hour : nat; Minute : nat; Second : nat
}.

(** The calendar date of a reading of the clock. *)
Definition dateOf (t : Time) : nat * nat * nat := (Year t, Month t, Day t).

(** Month and day are in range, as they are in every [time.Time]. *)
Definition validDate (t : Time) : Prop :=
  1 ≤ Month t ≤ 12 ∧ 1 ≤ Day t ≤ 31.

(** [t.Format("20060102")]: year, month, day, no separators. *)
Definition formatDate (t : Time) : string :=
  itoa (Year t) 4 +:+ itoa (Month t) 2 +:+ itoa (Day t) 2.

(** Flags of package [log]. *)
Record LogFlags := { Ldate : bool; Ltime : bool; Lshortfile : bool }.
Definition LstdFlags : LogFlags :=
  {| Ldate := true; Ltime := true; Lshortfile := false |}.
Definition LstdFlags_or_Lshortfile : LogFlags :=
  {| Ldate := true; Ltime := true; Lshortfile := true |}.

(** [formatHeader] of package [log] with an empty prefix:
    [2006/01/02 15:04:05 file:line: ]. *)
Definition formatHeader (flags : LogFlags) (t : Time) (file : string) (line : nat)
  : string :=
  (if Ldate flags
   then itoa (Year t) 4 +:+ "/" +:+ itoa (Month t) 2 +:+ "/" +:+ itoa (Day t) 2 +:+ " "
   else "") +:+
  (if Ltime flags
   then itoa (Hour t) 2 +:+ ":" +:+ itoa (Minute t) 2 +:+ ":" +:+ itoa (Second t) 2 +:+ " "
   else "") +:+
  (if Lshortfile flags then file +:+ ":" +:+ itoa line 0 +:+ ": " else "").

(** The bytes one call of [Logger.Output] of package [log] writes:
    header, text and a newline unless the text already ends with one. *)
Definition logEntry (flags : LogFlags) (t : Time) (file : string) (line : nat)
    (s : string) : string :=
  formatHeader flags t file line +:+ s +:+ (if endsWithNewline s then "" else NL).

(** ** Data model *)

Definition MessageType := string.

Definition Info : MessageType := "INFO".
Definition Success : MessageType := "SUCCESS".
Definition Warning : MessageType := "WARNING".
Definition Error : MessageType := "ERROR".
Definition Debug : MessageType := "DEBUG".
Definition Trace : MessageType := "TRACE".

Definition colorMap : gmap string string :=
  <[Info := ESC +:+ "[34m"]>
  (<[Success := ESC +:+ "[32m"]>
  (<[Warning := ESC +:+ "[33m"]>
  (<[Error := ESC +:+ "[31m"]>
  (<[Debug := ESC +:+ "[35m"]>
  (<[Trace := ESC +:+ "[36m"]> ∅))))).

Definition resetCode : string := ESC +:+ "[0m".

Record Twlc := mkTwlc {
  SaveInLogFile : bool;
  ShowInConsole : bool;
  ColorMessages : bool;
  BGColor : bool;
  FGColor : bool;
  WithTime : bool;
  LogDir : string;
  LogFilePath : string
}.

(** [fmt.Sprintf("[%s] %s", messageType, message)]. *)
Definition Sprintf_tag (messageType : MessageType) (message : string) : string :=
  "[" +:+ messageType +:+ "] " +:+ message.

Definition setColor (t : Twlc) (messageType : MessageType) (message : string)
  : MessageType * string :=
  match colorMap !! messageType with
  | None => (messageType, message)
  | Some color =>
      let message := if FGColor t then color +:+ message +:+ resetCode else message in
      let messageType :=
        if BGColor t then color +:+ messageType +:+ resetCode else messageType in
      (messageType, message)
  end.

(** ** The environment *)

(** A Go [error]: its [Error()] text, and whether [os.IsNotExist] holds
    of it. *)
Record error := mkError { notExist : bool; errorText : string }.

(** [os.IsNotExist(err)]; a nil error is not one. *)
Definition os_IsNotExist (err : option error) : bool :=
  match err with
  | Some e => notExist e
  | None => false
  end.

(** An open [*os.File]. *)
Record File := mkFile { fd : nat; fileName : string }.

(** What a run does to the outside, in order. *)
Inductive Event :=
  | EvStat (path : string) (err : option error)
  | EvMkdirAll (path : string) (err : option error)
  | EvCreate (path : string) (res : File + error)
  | EvOpenFile (path : string) (res : File + error)
  | EvWrite (file : File) (data : string) (err : option error)
  | EvClose (file : File) (err : option error)
  | EvStdout (data : string)
  | EvStderr (data : string).

(** The operating system as the program sees it.  [files] maps the path of
    every regular file to its content and [dirs] is the set of
    directories; [clock] gives the successive readings of [time.Now()],
    [ticks] counting those taken so far.  The [_err] tables are the
    oracle: a path bound in one of them makes that operation fail on it
    with the error given. *)
Record World := mkWorld {
  files : gmap string string;
  dirs : gset string;
  next_fd : nat;
  clock : nat → Time;
  ticks : nat;
  executable : string + error;
  stat_err : gmap string error;
  mkdir_err : gmap string error;
  create_err : gmap string error;
  open_err : gmap string error;
  write_err : gmap string error;
  close_err : gmap string error
}.

Definition set_files (f : gmap string string) (w : World) : World :=
  mkWorld f (dirs w) (next_fd w) (clock w) (ticks w) (executable w)
    (stat_err w) (mkdir_err w) (create_err w) (open_err w) (write_err w) (close_err w).
Definition set_dirs (d : gset string) (w : World) : World :=
  mkWorld (files w) d (next_fd w) (clock w) (ticks w) (executable w)
    (stat_err w) (mkdir_err w) (create_err w) (open_err w) (write_err w) (close_err w).
Definition set_next_fd (n : nat) (w : World) : World :=
  mkWorld (files w) (dirs w) n (clock w) (ticks w) (executable w)
    (stat_err w) (mkdir_err w) (create_err w) (open_err w) (write_err w) (close_err w).
Definition set_ticks (n : nat) (w : World) : World :=
  mkWorld (files w) (dirs w) (next_fd w) (clock w) n (executable w)
    (stat_err w) (mkdir_err w) (create_err w) (open_err w) (write_err w) (close_err w).

(** The state a method of [*Twlc] runs in: its receiver and the world. *)
Record State := mkState { self : Twlc; world : World }.

(** How a call ends: it returns, the process exits ([os.Exit]), or it
    panics. *)
Inductive Result (A : Type) :=
  | Ret (a : A)
  | Exit (code : Z)
  | Panic (e : error).
Arguments Ret {A} a.
Arguments Exit {A} code.
Arguments Panic {A} e.

Record Outcome (St A : Type) := mkOutcome {
  result : Result A;
  final : St;
  events : list Event
}.
Arguments mkOutcome {St A} result final events.
Arguments result {St A} o.
Arguments final {St A} o.
Arguments events {St A} o.

(** Computations over a state [St] that may stop the process. *)
Definition M (St A : Type) : Type := St → Outcome St A.

Definition M_ret {St A} (a : A) : M St A := λ s, mkOutcome (Ret a) s [].

Definition M_bind {St A B} (k : A → M St B) (m : M St A) : M St B :=
  λ s,
    match m s with
    | mkOutcome (Ret a) s1 tr1 =>
        match k a s1 with
        | mkOutcome r s2 tr2 => mkOutcome r s2 (tr1 ++ tr2)
        end
    | mkOutcome (Exit code) s1 tr1 => mkOutcome (Exit code) s1 tr1
    | mkOutcome (Panic e) s1 tr1 => mkOutcome (Panic e) s1 tr1
    end.

#[global] Instance M_MRet {St} : MRet (M St) := @M_ret St.
#[global] Instance M_MBind {St} : MBind (M St) := @M_bind St.

Definition emit {St} (e : Event) : M St unit := λ s, mkOutcome (Ret tt) s [e].
Definition get {St} : M St St := λ s, mkOutcome (Ret s) s [].
Definition gets {St A} (f : St → A) : M St A := λ s, mkOutcome (Ret (f s)) s [].
Definition modify {St} (f : St → St) : M St unit := λ s, mkOutcome (Ret tt) (f s) [].

(** [os.Exit(code)]: the process stops here; deferred calls do not run. *)
Definition os_Exit {St A} (code : Z) : M St A := λ s, mkOutcome (Exit code) s [].

(** [panic(err)]. *)
Definition panic {St A} (e : error) : M St A := λ s, mkOutcome (Panic e) s [].

(** A computation on the world alone, run from a method: the receiver is
    out of its reach. *)
Definition sys {A} (m : M World A) : M State A :=
  λ s,
    match m (world s) with
    | mkOutcome r w tr => mkOutcome r (mkState (self s) w) tr
    end.

Definition get_self : M State Twlc := gets self.

(** [t] with its last field replaced. *)
Definition withLogFilePath (t : Twlc) (path : string) : Twlc :=
  mkTwlc (SaveInLogFile t) (ShowInConsole t) (ColorMessages t) (BGColor t)
    (FGColor t) (WithTime t) (LogDir t) path.

(** The assignment [t.LogFilePath = path]. *)
Definition set_LogFilePath (path : string) : M State unit :=
  modify (λ s, mkState (withLogFilePath (self s) path) (world s)).

(** ** System calls *)

Definition time_Now : M World Time :=
  w ← get;
  modify (set_ticks (S (ticks w)));;
  mret (clock w (ticks w)).

Definition pathExists (fs : gmap string string) (ds : gset string) (path : string)
  : bool :=
  bool_decide (is_Some (fs !! path)) || bool_decide (path ∈ ds).

(** [os.Stat(path)], of which the program keeps the error only. *)
Definition os_Stat (path : string) : M World (option error) :=
  w ← get;
  let err :=
    match stat_err w !! path with
    | Some e => Some e
    | None =>
        if pathExists (files w) (dirs w) path then None
        else Some (mkError true ("stat " +:+ path +:+ ": no such file or directory"))
    end in
  emit (EvStat path err);;
  mret err.

(** [os.MkdirAll(path, os.ModePerm)]. *)
Definition os_MkdirAll (path : string) : M World (option error) :=
  w ← get;
  match mkdir_err w !! path with
  | Some e => emit (EvMkdirAll path (Some e));; mret (Some e)
  | None =>
      modify (set_dirs ({[path]} ∪ dirs w));;
      emit (EvMkdirAll path None);;
      mret None
  end.

(** A descriptor for [path], never handed out before. *)
Definition newFile (path : string) : M World File :=
  w ← get;
  modify (set_next_fd (S (next_fd w)));;
  mret (mkFile (next_fd w) path).

(** [os.Create(path)]: creates the file, or truncates it. *)
Definition os_Create (path : string) : M World (File + error) :=
  w ← get;
  match create_err w !! path with
  | Some e => emit (EvCreate path (inr e));; mret (inr e)
  | None =>
      modify (set_files (<[path := ""]> (files w)));;
      file ← newFile path;
      emit (EvCreate path (inl file));;
      mret (inl file)
  end.

(** [os.OpenFile(path, os.O_APPEND|os.O_CREATE|os.O_WRONLY, 0644)]. *)
Definition os_OpenFile (path : string) : M World (File + error) :=
  w ← get;
  match open_err w !! path with
  | Some e => emit (EvOpenFile path (inr e));; mret (inr e)
  | None =>
      (match files w !! path with
       | Some _ => mret tt
       | None => modify (set_files (<[path := ""]> (files w)))
       end);;
      file ← newFile path;
      emit (EvOpenFile path (inl file));;
      mret (inl file)
  end.

(** [file.Write(data)] on a file opened for appending. *)
Definition file_Write (file : File) (data : string) : M World (option error) :=
  w ← get;
  let path := fileName file in
  match write_err w !! path with
  | Some e => emit (EvWrite file data (Some e));; mret (Some e)
  | None =>
      modify (set_files (<[path := default "" (files w !! path) +:+ data]> (files w)));;
      emit (EvWrite file data None);;
      mret None
  end.

(** [file.Close()]. *)
Definition file_Close (file : File) : M World (option error) :=
  w ← get;
  let err := close_err w !! fileName file in
  emit (EvClose file err);;
  mret err.

(** Writes to the standard streams; they are taken to succeed. *)
Definition write_stdout (data : string) : M World unit := emit (EvStdout data).
Definition write_stderr (data : string) : M World unit := emit (EvStderr data).

(** [os.Executable()]. *)
Definition os_Executable : M World (string + error) := gets executable.

(** ** Packages [log] and [fmt] *)

(** [fmt.Printf] with its format already expanded to [s]. *)
Definition fmt_Printf (s : string) : M World unit := write_stdout s.

(** [log.Printf]: the standard logger writes to standard error with
    [LstdFlags]. *)
Definition log_Printf (s : string) : M World unit :=
  now ← time_Now;
  write_stderr (logEntry LstdFlags now "" 0 s).

(** [log.Fatalf]: [log.Printf] followed by [os.Exit(1)]. *)
Definition log_Fatalf {A} (s : string) : M World A :=
  log_Printf s;;
  os_Exit 1%Z.

(** [Printf] of a [log.New(file, "", flags)] logger, called at [line] of
    [twlc.go]; the error of the write is dropped, as [Printf] drops it. *)
Definition logger_Printf (file : File) (flags : LogFlags) (line : nat) (s : string)
  : M World unit :=
  now ← time_Now;
  _ ← file_Write file (logEntry flags now "twlc.go" line s);
  mret tt.

(** ** The program *)

(** The flags of the logger the file block builds:
    [log.New(file, "", log.LstdFlags)], then
    [SetFlags(log.LstdFlags | log.Lshortfile)] if [t.WithTime]. *)
Definition fileFlags (t : Twlc) : LogFlags :=
  if WithTime t then LstdFlags_or_Lshortfile else LstdFlags.

Section Program.

(** [filepath.Join] and [filepath.Dir] belong to the platform's library,
    and so does [json.MarshalIndent] over the values of [interface{}]. *)
Variable Join : string → string → string.
Variable Dir : string → string.
Variable value : Type.
Variable MarshalIndent : value → string → string → string + error.

(** The calls a function has deferred, run when it returns, last
    deferred first; what they return is dropped. *)
Fixpoint run_deferred (ds : list (M World (option error))) : M State unit :=
  match ds with
  | [] => mret tt
  | d :: ds' => _ ← sys d; run_deferred ds'
  end.

Definition createLogFile : M State unit :=
  t ← get_self;
  err ← sys (os_Stat (LogFilePath t));
  if os_IsNotExist err then
    r ← sys (os_Create (LogFilePath t));
    match r with
    | inr err => sys (log_Fatalf ("Failed to create log file: " +:+ errorText err))
    | inl file => _ ← sys (file_Close file); mret tt
    end
  else mret tt.

(** The first block of [WriteLog].  It hands back the call it has
    deferred, [file.Close()], which the function runs on return. *)
Definition persist (messageType : MessageType) (message : string)
  : M State (list (M World (option error))) :=
  t ← get_self;
  if SaveInLogFile t then
    now ← sys time_Now;
    let date := formatDate now in
    set_LogFilePath (Join (LogDir t) ("twlc_" +:+ date +:+ ".log"));;
    createLogFile;;
    t ← get_self;
    r ← sys (os_OpenFile (LogFilePath t));
    match r with
    | inr err => sys (log_Fatalf ("Failed to open log file: " +:+ errorText err))
    | inl file =>
        sys (logger_Printf file (fileFlags t) 62 (Sprintf_tag messageType message));;
        mret [file_Close file]
    end
  else mret [].

(** The last block of [WriteLog]. *)
Definition console (messageType : MessageType) (message : string) : M State unit :=
  t ← get_self;
  if ShowInConsole t then
    if WithTime t then sys (log_Printf (Sprintf_tag messageType message))
    else sys (fmt_Printf (Sprintf_tag messageType message +:+ NL))
  else mret tt.

Definition WriteLog (messageType : MessageType) (message : string) : M State unit :=
  deferred ← persist messageType message;
  t ← get_self;
  let '(messageType, message) :=
    if ColorMessages t then setColor t messageType message
    else (messageType, message) in
  console messageType message;;
  run_deferred deferred.

(** The methods [Error], [Warning], [Info], [Success], [Debug] and
    [Trace] of [*Twlc]; the bare names are those of the severities. *)
Definition Twlc_Error (message : string) : M State unit := WriteLog Error message.
Definition Twlc_Warning (message : string) : M State unit := WriteLog Warning message.
Definition Twlc_Info (message : string) : M State unit := WriteLog Info message.
Definition Twlc_Success (message : string) : M State unit := WriteLog Success message.
Definition Twlc_Debug (message : string) : M State unit := WriteLog Debug message.
Definition Twlc_Trace (message : string) : M State unit := WriteLog Trace message.

(** [fmt.Errorf("failed to convert struct to JSON: %v", err)]: a new
    error carrying the text of [err]. *)
Definition Errorf_json (err : error) : error :=
  mkError false ("failed to convert struct to JSON: " +:+ errorText err).

Definition StructToJson (_struct : value) : M State (string * option error) :=
  match MarshalIndent _struct "" "    " with
  | inr err => mret ("", Some (Errorf_json err))
  | inl jsonData => mret (jsonData, None)
  end.

Definition createLogDir (logDir : string) : M World unit :=
  err ← os_Stat logDir;
  if os_IsNotExist err then
    err ← os_MkdirAll logDir;
    match err with
    | Some err => log_Fatalf ("Failed to create log directory: " +:+ errorText err)
    | None => mret tt
    end
  else mret tt.

Definition NewTwlc (saveInLogFile ShowInConsole colorMessages bgColor fgColor
    withTime : bool) (logDir : string) : M World Twlc :=
  createLogDir logDir;;
  mret (mkTwlc saveInLogFile ShowInConsole colorMessages bgColor fgColor withTime
          logDir "").

Definition DefaultTwlc : M World Twlc :=
  r ← os_Executable;
  match r with
  | inr err => panic err
  | inl exeDir =>
      let exeDir := Dir exeDir in
      let logDir := exeDir +:+ "/logs/" in
      createLogDir logDir;;
      mret (mkTwlc true true true true true true logDir "")
  end.

(** A call of [WriteLog] or of one of its six shorthands. *)
Inductive Call :=
  | CallWriteLog (messageType : MessageType) (message : string)
  | CallError (message : string)
  | CallWarning (message : string)
  | CallInfo (message : string)
  | CallSuccess (message : string)
  | CallDebug (message : string)
  | CallTrace (message : string).

Definition call (c : Call) : M State unit :=
  match c with
  | CallWriteLog messageType message => WriteLog messageType message
  | CallError message => Twlc_Error message
  | CallWarning message => Twlc_Warning message
  | CallInfo message => Twlc_Info message
  | CallSuccess message => Twlc_Success message
  | CallDebug message => Twlc_Debug message
  | CallTrace message => Twlc_Trace message
  end.

(** Calls made one after the other, for as long as the process lives. *)
Fixpoint calls (cs : list Call) : M State unit :=
  match cs with
  | [] => mret tt
  | c :: cs' => call c;; calls cs'
  end.

End Program.

(** ** The package variable *)

Section Package.

Variable Dir : string → string.



End Package.

(** ** Paths on Unix

    [filepath.Join] as package [path/filepath] documents it for Unix:
    empty elements are ignored, the rest are joined with a slash and the
    result is cleaned.  [Clean] works on the elements between slashes:
    empty elements and [.] are dropped, [..] removes the element before
    it (it is dropped at the root, and kept at the start of a relative
    path), and an empty result is [.]. *)

(** [strings.Split(s, "/")]. *)
Fixpoint splitSlash (s : string) : list string :=
  match s with
  | EmptyString => [""]
  | String c s' =>
      if bool_decide (c = "/"%char) then "" :: splitSlash s'
      else
        match splitSlash s' with
        | x :: xs => String c x :: xs
        | [] => [String c ""]
        end
  end.

(** One element read by [Clean]; [st] holds the elements kept so far, the
    last one first. *)
Definition cleanStep (rooted : bool) (st : list string) (c : string) : list string :=
  if bool_decide (c = "") || bool_decide (c = ".") then st
  else if bool_decide (c = "..") then
    match st with
    | top :: rest => if bool_decide (top = "..") then c :: st else rest
    | [] => if rooted then [] else [c]
    end
  else c :: st.

Fixpoint renderStack (st : list string) : string :=
  match st with
  | [] => ""
  | [x] => x
  | x :: st' => renderStack st' +:+ "/" +:+ x
  end.

Definition isRooted (path : string) : bool :=
  match path with
  | String c _ => bool_decide (c = "/"%char)
  | EmptyString => false
  end.

Definition Clean (path : string) : string :=
  let rooted := isRooted path in
  match fold_left (cleanStep rooted) (splitSlash path) [] with
  | [] => if rooted then "/" else "."
  | st => (if rooted then "/" else "") +:+ renderStack st
  end.

Definition unixJoin (a b : string) : string :=
  if bool_decide (a = "") then (if bool_decide (b = "") then "" else Clean b)
  else Clean (a +:+ "/" +:+ b).

(** [filepath.Dir]: everything up to the last slash, cleaned. *)
Fixpoint dirPart (path : string) : string :=
  match path with
  | EmptyString => ""
  | String c s' =>
      if bool_decide (c = "/"%char) then String c (dirPart s')
      else match dirPart s' with
           | EmptyString => ""
           | d => String c d
           end
  end.

Definition unixDir (path : string) : string := Clean (dirPart path).

(** File names made of letters, digits, [_] and [.] only, other than the
    empty name, [.] and [..]: single path elements on every platform. *)
Definition nameChar (c : ascii) : bool :=
  let n := nat_of_ascii c in
  ((48 <=? n) && (n <=? 57)) || ((65 <=? n) && (n <=? 90))
  || ((97 <=? n) && (n <=? 122)) || (n =? 95) || (n =? 46).

Fixpoint allChars (p : ascii → bool) (s : string) : bool :=
  match s with
  | EmptyString => true
  | String c s' => p c && allChars p s'
  end.

Definition plainName (s : string) : bool :=
  allChars nameChar s && negb (bool_decide (s = ""))
  && negb (bool_decide (s = ".")) && negb (bool_decide (s = "..")).

(** ** What a run is observed to do *)

(** The seven fields of the configuration that are given at construction. *)
Definition config (t : Twlc)
  : bool * bool * bool * bool * bool * bool * string :=
  (SaveInLogFile t, ShowInConsole t, ColorMessages t, BGColor t, FGColor t,
   WithTime t, LogDir t).

(** The reading [time.Now()] gives next. *)
Definition nextNow (w : World) : Time := clock w (ticks w).

(** The log file of directory [dir] for the date of [now]. *)
Definition logPath (Join : string → string → string) (dir : string) (now : Time)
  : string :=
  Join dir ("twlc_" +:+ formatDate now +:+ ".log").

(** What the program needs of [filepath.Join]: in one directory, distinct
    plain names give distinct paths, and the path of a plain name is not
    empty. *)
Definition JoinSeparatesNames (Join : string → string → string) : Prop :=
  ∀ dir a b, plainName a = true → plainName b = true → Join dir a = Join dir b → a = b.

Definition JoinNonEmpty (Join : string → string → string) : Prop :=
  ∀ dir a, plainName a = true → Join dir a ≠ "".

(** No oracle makes an operation of the file step fail on [path]. *)
Definition ioOK (w : World) (path : string) : Prop :=
  stat_err w !! path = None ∧ create_err w !! path = None
  ∧ open_err w !! path = None ∧ write_err w !! path = None.

(** Two worlds with the same clock and the same oracles. *)
Definition sameOracles (w w' : World) : Prop :=
  clock w' = clock w ∧ stat_err w' = stat_err w ∧ create_err w' = create_err w
  ∧ open_err w' = open_err w ∧ write_err w' = write_err w.

(** What reaches the console, standard output and standard error alike. *)
Fixpoint consoleWrites (tr : list Event) : list string :=
  match tr with
  | [] => []
  | EvStdout data :: tr' => data :: consoleWrites tr'
  | EvStderr data :: tr' => data :: consoleWrites tr'
  | _ :: tr' => consoleWrites tr'
  end.

(** What is handed to [Write] on a file, with the path of the file. *)
Fixpoint fileWrites (tr : list Event) : list (string * string) :=
  match tr with
  | [] => []
  | EvWrite file data _ :: tr' => (fileName file, data) :: fileWrites tr'
  | _ :: tr' => fileWrites tr'
  end.

(** The errors the system calls of a run came back with.  The "does not
    exist" answer of [os.Stat] is not among them: the program asks in order
    to get it. *)
Fixpoint failures (tr : list Event) : list error :=
  match tr with
  | [] => []
  | EvStat _ (Some e) :: tr' =>
      if notExist e then failures tr' else e :: failures tr'
  | EvMkdirAll _ (Some e) :: tr' => e :: failures tr'
  | EvCreate _ (inr e) :: tr' => e :: failures tr'
  | EvOpenFile _ (inr e) :: tr' => e :: failures tr'
  | EvWrite _ _ (Some e) :: tr' => e :: failures tr'
  | EvClose _ (Some e) :: tr' => e :: failures tr'
  | _ :: tr' => failures tr'
  end.

#[global] Instance File_eq_dec : EqDecision File.
Proof. solve_decision. Defined.

Definition release (file : File) (hs : list File) : list File :=
  filter (λ h, h ≠ file) hs.

(** The file handles held after the events [tr], [hs] being held before. *)
Fixpoint held (tr : list Event) (hs : list File) : list File :=
  match tr with
  | [] => hs
  | EvCreate _ (inl file) :: tr' => held tr' (file :: hs)
  | EvOpenFile _ (inl file) :: tr' => held tr' (file :: hs)
  | EvClose file _ :: tr' => held tr' (release file hs)
  | _ :: tr' => held tr' hs
  end.

(** The handles held at each write to the console. *)
Fixpoint heldAtConsole (tr : list Event) (hs : list File) : list (list File) :=
  match tr with
  | [] => []
  | EvCreate _ (inl file) :: tr' => heldAtConsole tr' (file :: hs)
  | EvOpenFile _ (inl file) :: tr' => heldAtConsole tr' (file :: hs)
  | EvClose file _ :: tr' => heldAtConsole tr' (release file hs)
  | EvStdout _ :: tr' => hs :: heldAtConsole tr' hs
  | EvStderr _ :: tr' => hs :: heldAtConsole tr' hs
  | _ :: tr' => heldAtConsole tr' hs
  end.

(** Whether a text holds the escape character. *)
Fixpoint hasEscape (s : string) : bool :=
  match s with
  | EmptyString => false
  | String c s' => bool_decide (c = "027"%char) || hasEscape s'
  end.

(** The events of [createLogFile] when it returns, on [path]: the file
    was there, or it was created and closed at once. *)
Definition createdOrFound (path : string) (pre : list Event) : Prop :=
  (∃ se, os_IsNotExist se = false ∧ pre = [EvStat path se])
  ∨ (∃ se file ce, os_IsNotExist se = true ∧ fileName file = path
       ∧ pre = [EvStat path se; EvCreate path (inl file); EvClose file ce]).

(** The tag and the message the console block is given. *)
Definition forConsole (t : Twlc) (messageType : MessageType) (message : string)
  : MessageType * string :=
  if ColorMessages t then setColor t messageType message else (messageType, message).

(** The events of the console block, given the tag and the message. *)
Definition consolePrints (t : Twlc) (messageType : MessageType) (message : string)
    (con : list Event) : Prop :=
  if ShowInConsole t then
    if WithTime t
    then ∃ now,
      con = [EvStderr (logEntry LstdFlags now "" 0 (Sprintf_tag messageType message))]
    else con = [EvStdout (Sprintf_tag messageType message +:+ NL)]
  else con = [].

(** The events of the console block of [WriteLog]. *)
Definition consoleEvents (t : Twlc) (messageType : MessageType) (message : string)
    (con : list Event) : Prop :=
  consolePrints t (forConsole t messageType message).1
    (forConsole t messageType message).2 con.

(** The line the console block prints, [now] being the reading of the
    clock [log.Printf] takes. *)
Definition consoleLine (t : Twlc) (now : Time) (messageType : MessageType)
    (message : string) : string :=
  let text := Sprintf_tag (forConsole t messageType message).1
                (forConsole t messageType message).2 in
  if WithTime t then logEntry LstdFlags now "" 0 text else text +:+ NL.

(** The line [log.Fatalf] prints before the process exits. *)
Definition diagnostic (now : Time) (what : string) (err : error) : Event :=
  EvStderr (logEntry LstdFlags now "" 0 (what +:+ errorText err)).

(** What [os.Stat path] answers in the world [w]. *)
Definition statAnswer (w : World) (path : string) : option error :=
  match stat_err w !! path with
  | Some e => Some e
  | None =>
      if pathExists (files w) (dirs w) path then None
      else Some (mkError true ("stat " +:+ path +:+ ": no such file or directory"))
  end.

(** Whether the program takes [path] to be missing. *)
Definition reportedMissing (w : World) (path : string) : bool :=
  os_IsNotExist (statAnswer w path).

(** The severity and the message a call hands to [WriteLog]. *)
Definition callArgs (c : Call) : MessageType * string :=
  match c with
  | CallWriteLog messageType message => (messageType, message)
  | CallError message => (Error, message)
  | CallWarning message => (Warning, message)
  | CallInfo message => (Info, message)
  | CallSuccess message => (Success, message)
  | CallDebug message => (Debug, message)
  | CallTrace message => (Trace, message)
  end.

(** The event by which the console block prints its line: on standard
    error through [log.Printf], on standard output through [fmt.Printf]. *)
Definition consoleEvent (t : Twlc) (now : Time) (messageType : MessageType)
    (message : string) : Event :=
  if WithTime t then EvStderr (consoleLine t now messageType message)
  else EvStdout (consoleLine t now messageType message).

(** What reaches standard output, and what reaches standard error. *)
Fixpoint stdoutWrites (tr : list Event) : list string :=
  match tr with
  | [] => []
  | EvStdout data :: tr' => data :: stdoutWrites tr'
  | _ :: tr' => stdoutWrites tr'
  end.

Fixpoint stderrWrites (tr : list Event) : list string :=
  match tr with
  | [] => []
  | EvStderr data :: tr' => data :: stderrWrites tr'
  | _ :: tr' => stderrWrites tr'
  end.

(** The paths [os.MkdirAll] and [os.Create] were called on. *)
Fixpoint mkdirCalls (tr : list Event) : list string :=
  match tr with
  | [] => []
  | EvMkdirAll path _ :: tr' => path :: mkdirCalls tr'
  | _ :: tr' => mkdirCalls tr'
  end.

Fixpoint createCalls (tr : list Event) : list string :=
  match tr with
  | [] => []
  | EvCreate path _ :: tr' => path :: createCalls tr'
  | _ :: tr' => createCalls tr'
  end.

(** Two worlds that differ at most in the content of the file [path], in
    the descriptors handed out and in the readings taken of the clock. *)
Definition sameBut (path : string) (w w' : World) : Prop :=
  (∀ q, q ≠ path → files w' !! q = files w !! q)
  ∧ dirs w' = dirs w ∧ clock w' = clock w ∧ executable w' = executable w
  ∧ stat_err w' = stat_err w ∧ mkdir_err w' = mkdir_err w
  ∧ create_err w' = create_err w ∧ open_err w' = open_err w
  ∧ write_err w' = write_err w ∧ close_err w' = close_err w
  ∧ next_fd w ≤ next_fd w' ∧ ticks w ≤ ticks w'.

(** The date and the time at the head of a line of package [log]:
    [2006/01/02 15:04:05 ]. *)
Definition stamp (now : Time) : string :=
  itoa (Year now) 4 +:+ "/" +:+ itoa (Month now) 2 +:+ "/" +:+ itoa (Day now) 2 +:+ " "
  +:+ itoa (Hour now) 2 +:+ ":" +:+ itoa (Minute now) 2 +:+ ":" +:+ itoa (Second now) 2
  +:+ " ".

(** The entry [WriteLog] writes to the log file for a call, [now] being
    the reading of the clock its logger takes. *)
Definition fileEntry (t : Twlc) (now : Time) (c : Call) : string :=
  logEntry (fileFlags t) now "twlc.go" 62 (Sprintf_tag (callArgs c).1 (callArgs c).2).

(** The readings of the clock one returning call of a logger takes when
    file persistence is enabled. *)
Definition readingsPerCall (t : Twlc) : nat :=
  if ShowInConsole t && WithTime t then 3 else 2.

(** ** Sample runs *)

Definition morning : Time := mkTime 2025 1 1 10 30 0.
Definition nextDay : Time := mkTime 2025 1 2 9 15 42.

Definition appLog : string := "/var/log/app/twlc_20250101.log".
Definition nextDayLog : string := "/var/log/app/twlc_20250102.log".

(** A machine on which everything succeeds; the clock stays on the
    morning of 1 January 2025. *)
Definition quietWorld : World :=
  mkWorld ∅ {["/var/log/app"]} 3 (λ _, morning) 0 (inl "/usr/bin/app")
    ∅ ∅ ∅ ∅ ∅ ∅.

(** The same machine passing midnight after two readings of the clock. *)
Definition midnightWorld : World :=
  mkWorld ∅ {["/var/log/app"]} 3 (λ n, if n <? 2 then morning else nextDay) 0
    (inl "/usr/bin/app") ∅ ∅ ∅ ∅ ∅ ∅.

(** The log file cannot be opened. *)
Definition lockedWorld : World :=
  mkWorld ∅ {["/var/log/app"]} 3 (λ _, morning) 0 (inl "/usr/bin/app")
    ∅ ∅ ∅ {[appLog := mkError false ("open " +:+ appLog +:+ ": permission denied")]}
    ∅ ∅.

(** The disk is full: the log file opens, writing to it fails and so does
    closing it. *)
Definition fullWorld : World :=
  mkWorld {[appLog := ""]} {["/var/log/app"]} 3 (λ _, morning) 0 (inl "/usr/bin/app")
    ∅ ∅ ∅ ∅
    {[appLog := mkError false ("write " +:+ appLog +:+ ": no space left on device")]}
    {[appLog := mkError false ("close " +:+ appLog +:+ ": no space left on device")]}.

(** The log file is not there and cannot be created. *)
Definition noCreateWorld : World :=
  mkWorld ∅ {["/var/log/app"]} 3 (λ _, morning) 0 (inl "/usr/bin/app")
    ∅ ∅ {[appLog := mkError false ("open " +:+ appLog +:+ ": permission denied")]}
    ∅ ∅ ∅.

(** No directory can be made, neither [/var/log/app] nor the [logs] of
    the executable. *)
Definition readOnlyWorld : World :=
  mkWorld ∅ ∅ 3 (λ _, morning) 0 (inl "/usr/bin/app")
    ∅ (<["/var/log/app" := mkError false "mkdir /var/log/app: read-only file system"]>
        {["/usr/bin/logs/" := mkError false "mkdir /usr/bin/logs/: read-only file system"]})
    ∅ ∅ ∅ ∅.

(** Console only, message colored, no timestamp. *)
Definition consoleLogger : Twlc :=
  mkTwlc false true true false true false "/var/log/app" "".

(** File and console, nothing colored, no timestamp. *)
Definition plainLogger : Twlc :=
  mkTwlc true true false false false false "/var/log/app" "".

(** File and console, tag and message colored, no timestamp. *)
Definition colorLogger : Twlc :=
  mkTwlc true true true true true false "/var/log/app" "".

(** A [json.MarshalIndent] that refuses every value. *)
Definition refuseAll (_ : unit) (_ _ : string) : string + error :=
  inr (mkError false "json: unsupported type: chan int").

(** Console only, with timestamps. *)
Definition timedLogger : Twlc :=
  mkTwlc false true false false false true "/var/log/app" "".

(** A machine whose clock advances by one second at each reading. *)
Definition tickingWorld : World :=
  mkWorld ∅ {["/var/log/app"]} 3 (λ n, mkTime 2025 1 1 10 30 n) 0 (inl "/usr/bin/app")
    ∅ ∅ ∅ ∅ ∅ ∅.

(** File and console, with timestamps, nothing colored. *)
Definition stampedLogger : Twlc :=
  mkTwlc true true false false false true "/var/log/app" "".

(** The directory is not readable, a file has the name of the directory,
    the log file is not readable. *)
Definition hiddenWorld : World :=
  mkWorld {["/var/log/app.txt" := "notes"]} ∅ 3 (λ _, morning) 0 (inl "/usr/bin/app")
    (<["/var/log/app" := mkError false "stat /var/log/app: permission denied"]>
       {[appLog := mkError false ("stat " +:+ appLog +:+ ": permission denied")]})
    ∅ ∅ ∅ ∅ ∅.

(** The last second of a day, then the first of the next; the clock moves
    on at each reading. *)
Definition lastSecond : Time := mkTime 2025 1 1 23 59 59.
Definition firstSecond : Time := mkTime 2025 1 2 0 0 0.

Definition turningWorld : World :=
  mkWorld ∅ {["/var/log/app"]} 3 (λ n, if n <? 1 then lastSecond else firstSecond) 0
    (inl "/usr/bin/app") ∅ ∅ ∅ ∅ ∅ ∅.

(** Two log files of earlier days and a note beside them; the directory
    of the logger is gone. *)
Definition usedWorld : World :=
  mkWorld (<["/var/log/app/twlc_20241231.log" := "old"]>
             {["/var/log/app/notes.txt" := "keep"]})
    ∅ 3 (λ _, morning) 0 (inl "/usr/bin/app") ∅ ∅ ∅ ∅ ∅ ∅.


(** * Proofs *)

(** ** Strings and decimal rendering *)

Example itoa_pads : itoa 7 2 = "07" ∧ itoa 2025 4 = "2025" ∧ itoa 62 0 = "62".
Proof. vm_compute. auto. Qed.

Lemma append_cons c s x : String c s +:+ x = String c (s +:+ x).
Proof. reflexivity. Qed.

Lemma append_nil_l x : "" +:+ x = x.
Proof. reflexivity. Qed.

Lemma append_nil_r s : s +:+ "" = s.
Proof. induction s as [|c s IH]; [reflexivity|]. rewrite append_cons. by f_equal. Qed.

Lemma append_assoc a b c : (a +:+ b) +:+ c = a +:+ b +:+ c.
Proof. induction a as [|x a IH]; [reflexivity|]. rewrite !append_cons. by f_equal. Qed.

Lemma length_append a b : String.length (a +:+ b) = String.length a + String.length b.
Proof. induction a as [|x a IH]; [reflexivity|]. rewrite append_cons. simpl. by f_equal. Qed.

Lemma append_inv_length a a' b b' :
  String.length a = String.length a' → a +:+ b = a' +:+ b' → a = a' ∧ b = b'.
Proof.
  revert a'. induction a as [|x a IH]; intros [|x' a'] Hlen Heq; try discriminate.
  - by split.
  - rewrite !append_cons in Heq. injection Heq as -> Heq.
    injection Hlen as Hlen. destruct (IH a' Hlen Heq) as [-> ->]. by split.
Qed.

Lemma append_empty a b : a +:+ b = "" → a = "" ∧ b = "".
Proof. destruct a; [by split | discriminate]. Qed.

Lemma allChars_append p a b : allChars p (a +:+ b) = allChars p a && allChars p b.
Proof.
  induction a as [|x a IH]; [reflexivity|].
  rewrite append_cons. simpl. rewrite IH. by rewrite andb_assoc.
Qed.

Lemma length_string_of_list_ascii l :
  String.length (string_of_list_ascii l) = List.length l.
Proof. induction l as [|x l IH]; simpl; [reflexivity | by f_equal]. Qed.

Lemma allChars_string_of_list_ascii p l :
  allChars p (string_of_list_ascii l) = forallb p l.
Proof. induction l as [|x l IH]; simpl; [reflexivity | by f_equal]. Qed.

Lemma digit_value d : d < 10 → nat_of_ascii (digit d) - 48 = d.
Proof. intros H. unfold digit. rewrite nat_ascii_embedding; lia. Qed.

Lemma digit_nameChar d : d < 10 → nameChar (digit d) = true.
Proof.
  intros H. unfold nameChar, digit. rewrite nat_ascii_embedding by lia.
  replace ((48 <=? 48 + d) && (48 + d <=? 57)) with true; [reflexivity|].
  symmetry. apply andb_true_iff. split; apply Nat.leb_le; lia.
Qed.

Lemma itoa_rev_step fuel i wid :
  itoa_rev (S fuel) i wid =
    if (10 <=? i) || (1 <? wid)
    then digit (i mod 10) :: itoa_rev fuel (i / 10) (wid - 1)
    else [digit i].
Proof. reflexivity. Qed.

Lemma itoa_rev_cases i wid :
  ((10 <=? i) || (1 <? wid) = true ∧ (10 ≤ i ∨ 1 < wid))
  ∨ ((10 <=? i) || (1 <? wid) = false ∧ i < 10 ∧ wid ≤ 1).
Proof.
  destruct (10 <=? i) eqn:Hi; [apply Nat.leb_le in Hi | apply Nat.leb_gt in Hi];
  destruct (1 <? wid) eqn:Hw; [apply Nat.ltb_lt in Hw | apply Nat.ltb_ge in Hw
                              | apply Nat.ltb_lt in Hw | apply Nat.ltb_ge in Hw];
  simpl; [left | left | left | right]; split; auto; lia.
Qed.

Lemma div10_lt i : 10 ≤ i → i / 10 < i.
Proof. intros H. apply Nat.div_lt; lia. Qed.

Lemma value_itoa_rev fuel : ∀ i wid, i + wid ≤ fuel → value_rev (itoa_rev fuel i wid) = i.
Proof.
  induction fuel as [|fuel IH]; intros i wid Hfuel.
  - assert (i = 0) as -> by lia. reflexivity.
  - rewrite itoa_rev_step.
    destruct (itoa_rev_cases i wid) as [[-> Hc] | [-> [Hi Hw]]].
    + cbn [value_rev]. rewrite IH.
      * rewrite digit_value by (apply Nat.mod_upper_bound; lia).
        pose proof (Nat.div_mod_eq i 10). lia.
      * destruct (Nat.le_gt_cases 10 i) as [Hi | Hi].
        -- pose proof (div10_lt i Hi). lia.
        -- rewrite Nat.div_small by lia. lia.
    + cbn [value_rev]. rewrite digit_value by lia. lia.
Qed.

Lemma length_itoa_rev fuel : ∀ i wid,
  i + wid ≤ fuel → 1 ≤ wid → i < 10 ^ wid → List.length (itoa_rev fuel i wid) = wid.
Proof.
  induction fuel as [|fuel IH]; intros i wid Hfuel Hwid Hlt.
  - lia.
  - rewrite itoa_rev_step.
    destruct (itoa_rev_cases i wid) as [[-> Hc] | [-> [Hi Hw]]].
    + assert (1 < wid) as Hw.
      { destruct Hc as [Hc | Hc]; [|lia].
        destruct (decide (wid = 1)) as [-> | ?]; [simpl in Hlt; lia | lia]. }
      cbn [List.length]. rewrite IH; [lia | | lia |].
      * destruct (Nat.le_gt_cases 10 i) as [Hi | Hi].
        -- pose proof (div10_lt i Hi). lia.
        -- rewrite Nat.div_small by lia. lia.
      * apply Nat.Div0.div_lt_upper_bound.
        replace wid with (S (wid - 1)) in Hlt by lia. rewrite Nat.pow_succ_r' in Hlt. lia.
    + simpl. lia.
Qed.

Lemma digits_itoa_rev fuel : ∀ i wid,
  i + wid ≤ fuel → forallb nameChar (itoa_rev fuel i wid) = true.
Proof.
  induction fuel as [|fuel IH]; intros i wid Hfuel.
  - assert (i = 0) as -> by lia. reflexivity.
  - rewrite itoa_rev_step.
    destruct (itoa_rev_cases i wid) as [[-> Hc] | [-> [Hi Hw]]].
    + cbn [forallb]. rewrite digit_nameChar by (apply Nat.mod_upper_bound; lia).
      rewrite IH; [reflexivity|].
      destruct (Nat.le_gt_cases 10 i) as [Hi | Hi].
      * pose proof (div10_lt i Hi). lia.
      * rewrite Nat.div_small by lia. lia.
    + cbn [forallb]. by rewrite digit_nameChar.
Qed.

Lemma forallb_rev {A} (p : A → bool) (l : list A) : forallb p (rev l) = forallb p l.
Proof.
  induction l as [|x l IH]; [reflexivity|].
  simpl. rewrite forallb_app, IH. simpl. by rewrite andb_true_r, andb_comm.
Qed.

Lemma itoa_inj i j wid : itoa i wid = itoa j wid → i = j.
Proof.
  unfold itoa. intros H.
  apply (f_equal list_ascii_of_string) in H.
  rewrite !list_ascii_of_string_of_list_ascii in H.
  apply (f_equal (@rev ascii)) in H. rewrite !rev_involutive in H.
  apply (f_equal value_rev) in H.
  by rewrite !value_itoa_rev in H.
Qed.

Lemma length_itoa i wid : 1 ≤ wid → i < 10 ^ wid → String.length (itoa i wid) = wid.
Proof.
  intros Hw Hi. unfold itoa.
  rewrite length_string_of_list_ascii, length_rev. by apply length_itoa_rev.
Qed.

Lemma allChars_itoa i wid : allChars nameChar (itoa i wid) = true.
Proof.
  unfold itoa. rewrite allChars_string_of_list_ascii, forallb_rev.
  by apply digits_itoa_rev.
Qed.

Lemma formatDate_length t :
  validDate t → Year t < 10 ^ 4 → String.length (formatDate t) = 8.
Proof.
  intros (Hm & Hd) Hy. unfold formatDate.
  rewrite !length_append, !length_itoa; try done; simpl; lia.
Qed.

(** The year takes as many digits as it needs beyond four, month and day
    two each: the three fields of two equal dates line up. *)
Lemma formatDate_inj t1 t2 :
  validDate t1 → validDate t2 → formatDate t1 = formatDate t2 → dateOf t1 = dateOf t2.
Proof.
  intros (Hm1 & Hd1) (Hm2 & Hd2) H. unfold formatDate in H.
  pose proof (f_equal String.length H) as Hlen.
  rewrite !length_append, !(length_itoa _ 2) in Hlen by (try done; simpl; lia).
  apply append_inv_length in H as [Hy H]; [|lia].
  apply append_inv_length in H as [Hm Hd]; [|rewrite !length_itoa; try done; simpl; lia].
  unfold dateOf. by rewrite (itoa_inj _ _ _ Hy), (itoa_inj _ _ _ Hm), (itoa_inj _ _ _ Hd).
Qed.

Lemma allChars_formatDate t : allChars nameChar (formatDate t) = true.
Proof. unfold formatDate. by rewrite !allChars_append, !allChars_itoa. Qed.

Lemma formatDate_dateOf t1 t2 : dateOf t1 = dateOf t2 → formatDate t1 = formatDate t2.
Proof. unfold dateOf, formatDate. intros [= -> -> ->]. reflexivity. Qed.

Lemma plainName_logFile now :
  plainName ("twlc_" +:+ formatDate now +:+ ".log") = true.
Proof.
  unfold plainName. rewrite !append_cons, append_nil_l. cbn [allChars].
  rewrite allChars_append, allChars_formatDate. reflexivity.
Qed.

(** *** Paths on Unix *)

Example unixJoin_samples :
  unixJoin "/var/log/app" "twlc_20250101.log" = "/var/log/app/twlc_20250101.log"
  ∧ unixJoin "/tmp/x/" "f" = "/tmp/x/f"
  ∧ unixJoin "" "f" = "f"
  ∧ unixJoin "a/../b" "f" = "b/f"
  ∧ unixJoin "/.." "f" = "/f"
  ∧ unixJoin "../.." "f" = "../../f"
  ∧ unixJoin "a" "" = "a"
  ∧ unixDir "/usr/bin/app" = "/usr/bin"
  ∧ unixDir "app" = "."
  ∧ unixDir "/app" = "/".
Proof. vm_compute. repeat split. Qed.

Lemma nameChar_not_slash c : nameChar c = true → c ≠ "/"%char.
Proof. intros H ->. discriminate. Qed.

Lemma splitSlash_plain a : allChars nameChar a = true → splitSlash a = [a].
Proof.
  induction a as [|c a IH]; [reflexivity|]. cbn [allChars splitSlash].
  intros [Hc Ha]%andb_true_iff. rewrite bool_decide_eq_false_2 by by apply nameChar_not_slash.
  by rewrite IH.
Qed.

Lemma splitSlash_cons s : ∃ x xs, splitSlash s = x :: xs.
Proof.
  induction s as [|c s (x & xs & IH)]; [by eexists _, _|].
  cbn [splitSlash]. rewrite IH. destruct (bool_decide _); by eexists _, _.
Qed.

Lemma splitSlash_append a b :
  splitSlash (a +:+ String "/" b) = splitSlash a ++ splitSlash b.
Proof.
  induction a as [|c a IH]; [reflexivity|].
  rewrite append_cons. cbn [splitSlash]. rewrite IH.
  destruct (bool_decide (c = "/"%char)); [reflexivity|].
  by destruct (splitSlash_cons a) as (x & xs & ->).
Qed.

Lemma cleanStep_plain rooted st a : plainName a = true → cleanStep rooted st a = a :: st.
Proof.
  unfold plainName, cleanStep. intros H.
  repeat (apply andb_true_iff in H as [H ?]).
  repeat match goal with H : negb _ = true |- _ => apply negb_true_iff in H; rewrite H end.
  reflexivity.
Qed.

Lemma plainName_chars a : plainName a = true → allChars nameChar a = true.
Proof. unfold plainName. intros H. by repeat (apply andb_true_iff in H as [H ?]). Qed.

Lemma plainName_nonempty a : plainName a = true → a ≠ "".
Proof. intros H ->. discriminate. Qed.

Lemma isRooted_append d x : d ≠ "" → isRooted (d +:+ x) = isRooted d.
Proof. by destruct d. Qed.

Lemma isRooted_plain a : plainName a = true → isRooted a = false.
Proof.
  intros H. pose proof (plainName_chars a H) as Hc. destruct a as [|c a]; [reflexivity|].
  simpl in *. apply andb_true_iff in Hc as [Hc _].
  by apply bool_decide_eq_false_2, nameChar_not_slash.
Qed.

(** Joining a directory with a plain name appends the name to a prefix
    that depends on the directory alone. *)
Lemma unixJoin_plain d : ∃ prefix, ∀ a, plainName a = true → unixJoin d a = prefix +:+ a.
Proof.
  unfold unixJoin. destruct (bool_decide (d = "")) eqn:Hd.
  - exists "". intros a Ha. rewrite bool_decide_eq_false_2 by by apply plainName_nonempty.
    unfold Clean. rewrite isRooted_plain, splitSlash_plain by auto using plainName_chars.
    cbn [fold_left]. by rewrite cleanStep_plain.
  - apply bool_decide_eq_false in Hd.
    set (rooted := isRooted d).
    set (st := fold_left (cleanStep rooted) (splitSlash d) []).
    exists ((if rooted then "/" else "") +:+
            match st with [] => "" | _ => renderStack st +:+ "/" end).
    intros a Ha. unfold Clean.
    rewrite isRooted_append by done. fold rooted.
    change ("/" +:+ a) with (String "/" a).
    rewrite splitSlash_append, (splitSlash_plain a) by auto using plainName_chars.
    rewrite fold_left_app. fold st. cbn [fold_left]. rewrite cleanStep_plain by done.
    rewrite append_assoc. f_equal.
    destruct st; [reflexivity|]. cbn [renderStack]. by rewrite append_assoc.
Qed.

Lemma unixJoin_plain_inj d a b :
  plainName a = true → plainName b = true → unixJoin d a = unixJoin d b → a = b.
Proof.
  destruct (unixJoin_plain d) as [prefix H]. intros Ha Hb.
  rewrite !H by done. apply (inj _).
Qed.

Lemma unixJoin_plain_nonempty d a : plainName a = true → unixJoin d a ≠ "".
Proof.
  destruct (unixJoin_plain d) as [prefix H]. intros Ha. rewrite H by done.
  intros [_ ->]%append_empty. discriminate.
Qed.

(** ** Running the program *)

(** Unfolds the program and the system calls on a state, down to its
    outcome or to the first test the state does not settle. *)
Ltac exec1 :=
  cbv beta iota zeta delta
    [WriteLog persist console createLogFile run_deferred createLogDir NewTwlc DefaultTwlc
     sys get_self set_LogFilePath get gets modify emit os_Exit panic
     time_Now os_Stat os_MkdirAll newFile os_Create os_OpenFile file_Write file_Close
     write_stdout write_stderr os_Executable fmt_Printf log_Printf log_Fatalf logger_Printf
     mbind mret M_MBind M_MRet M_bind M_ret withLogFilePath
     set_files set_dirs set_next_fd set_ticks];
  cbn [result final events self world
     files dirs next_fd clock ticks executable stat_err mkdir_err create_err open_err
     write_err close_err fd fileName
     SaveInLogFile ShowInConsole ColorMessages BGColor FGColor WithTime LogDir LogFilePath app].
Ltac exec := repeat progress exec1.

(** Splits on the innermost test the state does not settle. *)
Ltac split_innermost :=
  match goal with
  | |- context [match ?x with _ => _ end] =>
      lazymatch x with
      | context [match _ with _ => _ end] => fail
      | _ => destruct x eqn:?
      end
  end.

(** Closes a conjunction whose last part is an equation fixing the
    existential variables of the others. *)
Ltac shape := split_and!; [idtac .. | reflexivity]; done.

Lemma run_bind {St A B} (m : M St A) (k : A → M St B) s :
  (m ≫= k) s =
    match m s with
    | mkOutcome (Ret a) s1 tr1 =>
        match k a s1 with
        | mkOutcome r s2 tr2 => mkOutcome r s2 (tr1 ++ tr2)
        end
    | mkOutcome (Exit code) s1 tr1 => mkOutcome (Exit code) s1 tr1
    | mkOutcome (Panic e) s1 tr1 => mkOutcome (Panic e) s1 tr1
    end.
Proof. reflexivity. Qed.

Lemma createLogDir_cases d w :
  let o := createLogDir d w in
  (∃ se, os_IsNotExist se = false ∧ o = mkOutcome (Ret tt) w [EvStat d se])
  ∨ (∃ se, os_IsNotExist se = true ∧ result o = Ret tt
       ∧ events o = [EvStat d se; EvMkdirAll d None] ∧ d ∈ dirs (final o))
  ∨ (∃ se e now, os_IsNotExist se = true ∧ result o = Exit 1%Z
       ∧ events o = [EvStat d se; EvMkdirAll d (Some e);
                     diagnostic now "Failed to create log directory: " e]).
Proof.
  exec. destruct (os_IsNotExist _) eqn:Hse; exec.
  - destruct (mkdir_err w !! d) eqn:Hm; exec.
    + right; right. by eexists _, _, _.
    + right; left. eexists. split_and!; [done..|]. set_solver.
  - left. by eexists.
Qed.

Lemma persist_on_cases Join mt msg t w :
  SaveInLogFile t = true →
  let p := logPath Join (LogDir t) (nextNow w) in
  let o := persist Join mt msg (mkState t w) in
  self (final o) = withLogFilePath t p ∧
  ( (∃ se e now, result o = Exit 1%Z ∧ os_IsNotExist se = true
       ∧ create_err w !! p = Some e ∧
       events o = [EvStat p se; EvCreate p (inr e);
                   diagnostic now "Failed to create log file: " e])
  ∨ (∃ pre e now, result o = Exit 1%Z ∧ createdOrFound p pre
       ∧ open_err w !! p = Some e ∧
       events o = pre ++ [EvOpenFile p (inr e);
                   diagnostic now "Failed to open log file: " e])
  ∨ (∃ pre f now we, result o = Ret [file_Close f] ∧ createdOrFound p pre ∧ fileName f = p ∧
       events o = pre ++ [EvOpenFile p (inl f);
          EvWrite f (logEntry (fileFlags t) now "twlc.go" 62 (Sprintf_tag mt msg)) we]) ).
Proof.
  intros Hsave. unfold logPath, nextNow. set (p := Join _ _).
  exec. rewrite Hsave. exec. fold p.
  destruct (os_IsNotExist _) eqn:Hse; exec.
  - destruct (create_err w !! p) eqn:Hc; exec.
    + split; [by rewrite Hsave|]. left. by eexists _, _, _.
    + split_innermost; exec.
      * split; [by rewrite Hsave|]. right; left. eexists [_; _; _], _, _.
        split_and!; [done| |done|done]. right. eexists _, _, _. shape.
      * rewrite lookup_insert_eq. exec. split_innermost; exec.
        all: split; [by rewrite Hsave|]; right; right; eexists [_; _; _], _, _, _;
          (split_and!; [idtac .. | reflexivity]); [done | | done]; right; eexists _, _, _; shape.
  - split_innermost; exec.
    + split; [by rewrite Hsave|]. right; left. eexists [_], _, _.
      split_and!; [done| |done|done]. left. eexists. shape.
    + repeat (split_innermost; exec).
      all: split; [by rewrite Hsave|]; right; right; eexists [_], _, _, _;
        (split_and!; [idtac .. | reflexivity]); [done | | done]; left; eexists; shape.
Qed.

Lemma persist_off Join mt msg t w :
  SaveInLogFile t = false →
  persist Join mt msg (mkState t w) = mkOutcome (Ret []) (mkState t w) [].
Proof. intros H. exec. rewrite H. reflexivity. Qed.

Lemma setColor_withLogFilePath t p mt msg :
  setColor (withLogFilePath t p) mt msg = setColor t mt msg.
Proof. reflexivity. Qed.

Lemma forConsole_withLogFilePath t p mt msg :
  forConsole (withLogFilePath t p) mt msg = forConsole t mt msg.
Proof. reflexivity. Qed.

Lemma sameOracles_refl w : sameOracles w w.
Proof. by repeat split. Qed.

Lemma console_run mt msg t w :
  ∃ w' con,
    console mt msg (mkState t w) = mkOutcome (Ret tt) (mkState t w') con
    ∧ consolePrints t mt msg con
    ∧ files w' = files w ∧ sameOracles w w' ∧ ticks w ≤ ticks w'.
Proof.
  unfold consolePrints. exec.
  destruct (ShowInConsole t); [destruct (WithTime t)|]; exec;
    eexists _, _; (split; [reflexivity|]); cbn [files ticks];
    (split_and!; [eauto | done | by repeat split | lia]).
Qed.

Lemma run_get_self {A} (k : Twlc → M State A) s : (get_self ≫= k) s = k (self s) s.
Proof. rewrite run_bind. exec. by destruct (k (self s) s). Qed.

Lemma WriteLog_cases Join mt msg t w :
  let p := logPath Join (LogDir t) (nextNow w) in
  let o := WriteLog Join mt msg (mkState t w) in
  if SaveInLogFile t then
    self (final o) = withLogFilePath t p ∧
    ( (∃ se e now, result o = Exit 1%Z ∧ os_IsNotExist se = true
         ∧ create_err w !! p = Some e ∧
         events o = [EvStat p se; EvCreate p (inr e);
                     diagnostic now "Failed to create log file: " e])
    ∨ (∃ pre e now, result o = Exit 1%Z ∧ createdOrFound p pre
         ∧ open_err w !! p = Some e ∧
         events o = pre ++ [EvOpenFile p (inr e);
                     diagnostic now "Failed to open log file: " e])
    ∨ (∃ pre f now we con ce, result o = Ret tt ∧ createdOrFound p pre ∧ fileName f = p
         ∧ consoleEvents t mt msg con ∧
         events o = pre ++ [EvOpenFile p (inl f);
            EvWrite f (logEntry (fileFlags t) now "twlc.go" 62 (Sprintf_tag mt msg)) we]
            ++ con ++ [EvClose f ce]) )
  else
    ∃ w' con, o = mkOutcome (Ret tt) (mkState t w') con ∧ consoleEvents t mt msg con.
Proof.
  intros p o. subst o. unfold WriteLog. rewrite run_bind.
  destruct (SaveInLogFile t) eqn:Hsave.
  - destruct (persist_on_cases Join mt msg t w Hsave) as [Hself Hcases]. fold p in Hself, Hcases.
    destruct (persist Join mt msg (mkState t w)) as [r [t1 w1] tr].
    cbn [self final result events] in Hself, Hcases. subst t1.
    destruct Hcases as [(se & e & now & -> & Hse & He & ->)
      | [(pre & e & now & -> & Hpre & He & ->)
      | (pre & f & now & we & -> & Hpre & Hf & ->)]].
    + split; [done|]. left. by eexists _, _, _.
    + split; [done|]. right; left. by eexists _, _, _.
    + rewrite run_get_self. cbn [self].
      change (ColorMessages (withLogFilePath t p)) with (ColorMessages t).
      rewrite setColor_withLogFilePath.
      pose proof (eq_refl (forConsole t mt msg)) as Hfc. unfold forConsole at 2 in Hfc.
      destruct (if ColorMessages t then _ else _) as [mt' msg'].
      rewrite run_bind.
      destruct (console_run mt' msg' (withLogFilePath t p) w1) as (w' & con & -> & Hcon & _).
      exec. split; [done|]. right; right. eexists pre, f, now, we, con, _.
      split_and!; [done..| |by rewrite <- !app_assoc].
      unfold consoleEvents. by rewrite Hfc.
  - rewrite persist_off by done. rewrite run_get_self. cbn [self].
    pose proof (eq_refl (forConsole t mt msg)) as Hfc. unfold forConsole at 2 in Hfc.
    destruct (if ColorMessages t then _ else _) as [mt' msg'].
    rewrite run_bind.
    destruct (console_run mt' msg' t w) as (w' & con & -> & Hcon & _).
    exec. eexists w', con. rewrite app_nil_r. split; [done|].
    unfold consoleEvents. by rewrite Hfc.
Qed.

Lemma pathExists_false fs ds p : pathExists fs ds p = false → fs !! p = None.
Proof.
  unfold pathExists. intros [H _]%orb_false_iff.
  apply bool_decide_eq_false in H. by apply eq_None_not_Some.
Qed.

Lemma persist_ok Join mt msg t w :
  SaveInLogFile t = true →
  let p := logPath Join (LogDir t) (nextNow w) in
  ioOK w p →
  ∃ w' f tr,
    persist Join mt msg (mkState t w)
      = mkOutcome (Ret [file_Close f]) (mkState (withLogFilePath t p) w') tr
    ∧ files w' = <[p := default "" (files w !! p)
                        +:+ logEntry (fileFlags t) (clock w (S (ticks w))) "twlc.go" 62
                              (Sprintf_tag mt msg)]> (files w)
    ∧ sameOracles w w' ∧ ticks w' = S (S (ticks w)).
Proof.
  intros Hsave p (Hstat & Hcreate & Hopen & Hwrite). subst p.
  unfold logPath, nextNow in *. set (p := Join _ _) in *.
  exec. rewrite Hsave. exec. fold p. rewrite Hstat.
  destruct (pathExists (files w) (dirs w) p) eqn:Hex; cbn [os_IsNotExist notExist]; exec.
  - rewrite Hopen. exec. destruct (files w !! p) as [old|] eqn:Hold; exec.
    + rewrite Hwrite. exec. rewrite Hold. eexists _, (mkFile _ _), _. split; [by rewrite Hsave|].
      cbn [files ticks]. by repeat split.
    + rewrite Hwrite. exec. rewrite lookup_insert_eq, insert_insert_eq.
      eexists _, (mkFile _ _), _. split; [by rewrite Hsave|]. cbn [files ticks]. by repeat split.
  - apply pathExists_false in Hex. rewrite Hcreate. exec. rewrite Hopen. exec.
    rewrite lookup_insert_eq. exec. rewrite Hwrite. exec.
    rewrite lookup_insert_eq, insert_insert_eq, Hex.
    eexists _, (mkFile _ _), _. split; [by rewrite Hsave|]. cbn [files ticks]. by repeat split.
Qed.

Lemma sameOracles_trans w1 w2 w3 : sameOracles w1 w2 → sameOracles w2 w3 → sameOracles w1 w3.
Proof.
  unfold sameOracles. intros (-> & -> & -> & -> & ->) (-> & -> & -> & -> & ->). by repeat split.
Qed.

Lemma WriteLog_ok Join mt msg t w :
  SaveInLogFile t = true →
  let p := logPath Join (LogDir t) (nextNow w) in
  ioOK w p →
  ∃ w' tr,
    WriteLog Join mt msg (mkState t w)
      = mkOutcome (Ret tt) (mkState (withLogFilePath t p) w') tr
    ∧ files w' = <[p := default "" (files w !! p)
                        +:+ logEntry (fileFlags t) (clock w (S (ticks w))) "twlc.go" 62
                              (Sprintf_tag mt msg)]> (files w)
    ∧ sameOracles w w' ∧ ticks w < ticks w'.
Proof.
  intros Hsave p Hok.
  destruct (persist_ok Join mt msg t w Hsave Hok) as (w1 & f & tr & Hp & Hfiles & Hor & Hticks).
  fold p in Hp, Hfiles.
  unfold WriteLog. rewrite run_bind, Hp. rewrite run_get_self. cbn [self].
  destruct (if ColorMessages _ then _ else _) as [mt' msg'].
  rewrite run_bind.
  destruct (console_run mt' msg' (withLogFilePath t p) w1)
    as (w' & con & -> & _ & Hfiles' & Hor' & Hticks').
  exec. eexists _, _. split; [reflexivity|]. rewrite Hfiles', Hfiles.
  split_and!; [done | by eapply sameOracles_trans | lia].
Qed.

(** ** Traces *)

(** Settles the membership of an event in a trace given in full. *)
Ltac elems := decompose_list_elem_of; simplify_eq; try done.

Lemma consoleWrites_app tr1 tr2 :
  consoleWrites (tr1 ++ tr2) = consoleWrites tr1 ++ consoleWrites tr2.
Proof.
  induction tr1 as [|[] tr1 IH]; cbn [app consoleWrites]; rewrite ?IH; reflexivity.
Qed.

Lemma fileWrites_app tr1 tr2 : fileWrites (tr1 ++ tr2) = fileWrites tr1 ++ fileWrites tr2.
Proof.
  induction tr1 as [|[] tr1 IH]; cbn [app fileWrites]; rewrite ?IH; reflexivity.
Qed.

Lemma held_app tr1 tr2 hs : held (tr1 ++ tr2) hs = held tr2 (held tr1 hs).
Proof.
  revert hs. induction tr1 as [|ev tr1 IH]; intros hs; [reflexivity|].
  destruct ev as [| | ? [|] | ? [|] | | | |]; cbn [app held]; by rewrite ?IH.
Qed.

Lemma heldAtConsole_app tr1 tr2 hs :
  heldAtConsole (tr1 ++ tr2) hs = heldAtConsole tr1 hs ++ heldAtConsole tr2 (held tr1 hs).
Proof.
  revert hs. induction tr1 as [|ev tr1 IH]; intros hs; [reflexivity|].
  destruct ev as [| | ? [|] | ? [|] | | | |]; cbn [app held heldAtConsole]; by rewrite ?IH.
Qed.

Lemma release_head f hs : release f (f :: hs) = release f hs.
Proof. unfold release. rewrite filter_cons_False; [done|]. by intros []. Qed.

(** [createLogFile] neither prints nor writes, and leaves no file open. *)
Lemma createdOrFound_quiet p pre :
  createdOrFound p pre →
  consoleWrites pre = [] ∧ fileWrites pre = [] ∧ held pre [] = [] ∧ heldAtConsole pre [] = [].
Proof.
  intros [(se & _ & ->) | (se & f & ce & _ & _ & ->)];
    cbn [consoleWrites fileWrites held heldAtConsole]; [done|].
  by rewrite release_head.
Qed.

Lemma createdOrFound_events p pre ev :
  createdOrFound p pre → ev ∈ pre →
  (∃ se, ev = EvStat p se) ∨ (∃ f, ev = EvCreate p (inl f)) ∨ (∃ f ce, ev = EvClose f ce).
Proof.
  intros [(se & _ & ->) | (se & f & ce & _ & _ & ->)] Hin; elems; eauto.
Qed.

Lemma consolePrints_held t mt msg con :
  consolePrints t mt msg con → fileWrites con = [] ∧ ∀ hs, held con hs = hs.
Proof.
  unfold consolePrints. destruct (ShowInConsole t); [destruct (WithTime t)|].
  - by intros [now ->].
  - by intros ->.
  - by intros ->.
Qed.

Lemma consolePrints_events t mt msg con ev :
  consolePrints t mt msg con → ev ∈ con → (∃ d, ev = EvStdout d) ∨ (∃ d, ev = EvStderr d).
Proof.
  unfold consolePrints. destruct (ShowInConsole t); [destruct (WithTime t)|].
  - intros [now ->] Hin. elems; eauto.
  - intros -> Hin. elems; eauto.
  - intros -> Hin. elems.
Qed.

Lemma consoleEvents_line t mt msg con (any : Time) :
  consoleEvents t mt msg con →
  ∃ now, consoleWrites con = if ShowInConsole t then [consoleLine t now mt msg] else [].
Proof.
  unfold consoleEvents, consolePrints, consoleLine.
  destruct (ShowInConsole t); [destruct (WithTime t)|].
  - intros [now ->]. by exists now.
  - intros ->. by exists any.
  - intros ->. by exists any.
Qed.

Lemma endsWithNewline_append a b : b ≠ "" → endsWithNewline (a +:+ b) = endsWithNewline b.
Proof.
  intros Hb. induction a as [|c a IH]; [reflexivity|].
  rewrite append_cons. cbn [endsWithNewline]. rewrite IH.
  destruct (a +:+ b) eqn:Hab; [|reflexivity].
  by apply append_empty in Hab as [_ ?].
Qed.

(** An entry of the log ends with a newline: it is a line, or several when
    the message itself holds newlines. *)
Lemma logEntry_newline flags now file line s :
  endsWithNewline (logEntry flags now file line s) = true.
Proof.
  unfold logEntry. destruct (endsWithNewline s) eqn:Hs.
  - rewrite append_nil_r, endsWithNewline_append; [done|]. by intros ->.
  - rewrite <- append_assoc. by rewrite endsWithNewline_append.
Qed.

(** ** Whole calls *)

Lemma call_WriteLog Join c : ∃ mt msg, call Join c = WriteLog Join mt msg.
Proof. destruct c; by eexists _, _. Qed.

(** The receiver after [WriteLog], however the call ends. *)
Lemma WriteLog_self Join mt msg t w :
  self (final (WriteLog Join mt msg (mkState t w)))
  = if SaveInLogFile t then withLogFilePath t (logPath Join (LogDir t) (nextNow w)) else t.
Proof.
  pose proof (WriteLog_cases Join mt msg t w) as H. cbv zeta in H.
  destruct (SaveInLogFile t); [by destruct H|].
  by destruct H as (w' & con & -> & _).
Qed.

(** What holds of the receiver before a call and after it holds after any
    sequence of calls. *)
Lemma calls_invariant Join (P : Twlc → Prop) :
  (∀ c t w, P t → P (self (final (call Join c (mkState t w))))) →
  ∀ cs s, P (self s) → P (self (final (calls Join cs s))).
Proof.
  intros Hstep. induction cs as [|c cs IH]; intros s Hs; [done|].
  cbn [calls]. rewrite run_bind.
  pose proof (Hstep c (self s) (world s) Hs) as H1. destruct s as [t w]. cbn [self world] in H1.
  destruct (call Join c (mkState t w)) as [[[]|code|e] s1 tr1]; cbn [final] in *; [|done..].
  specialize (IH s1 H1). by destruct (calls Join cs s1).
Qed.

(** Without the file block nothing can stop the process. *)
Lemma calls_without_file Join cs : ∀ t w,
  SaveInLogFile t = false →
  ∃ w' tr, calls Join cs (mkState t w) = mkOutcome (Ret tt) (mkState t w') tr.
Proof.
  induction cs as [|c cs IH]; intros t w Hs; [by eexists _, _|].
  cbn [calls]. rewrite run_bind. destruct (call_WriteLog Join c) as (mt & msg & ->).
  pose proof (WriteLog_cases Join mt msg t w) as H. cbv zeta in H. rewrite Hs in H.
  destruct H as (w1 & con & -> & _).
  destruct (IH t w1 Hs) as (w' & tr & ->). by eexists _, _.
Qed.

Lemma WriteLog_console_only Join mt msg t w :
  SaveInLogFile t = false → ShowInConsole t = true → WithTime t = false →
  WriteLog Join mt msg (mkState t w)
  = mkOutcome (Ret tt) (mkState t w)
      [EvStdout (Sprintf_tag (forConsole t mt msg).1 (forConsole t mt msg).2 +:+ NL)].
Proof.
  intros Hs Hc Ht. unfold WriteLog. rewrite run_bind, persist_off by done.
  rewrite run_get_self. cbn [self]. unfold forConsole.
  destruct (if ColorMessages t then _ else _) as [mt' msg']. exec. by rewrite Hc, Ht.
Qed.

(** What the two sinks are handed by one call. *)
Lemma WriteLog_writes Join t w mt msg :
  let p := logPath Join (LogDir t) (nextNow w) in
  let o := WriteLog Join mt msg (mkState t w) in
  (∀ path data, (path, data) ∈ fileWrites (events o) →
     path = p ∧ ∃ now, data = logEntry (fileFlags t) now "twlc.go" 62 (Sprintf_tag mt msg))
  ∧ (result o = Ret tt →
       (∃ now, fileWrites (events o)
               = if SaveInLogFile t
                 then [(p, logEntry (fileFlags t) now "twlc.go" 62 (Sprintf_tag mt msg))]
                 else [])
       ∧ (∃ now, consoleWrites (events o)
                 = if ShowInConsole t then [consoleLine t now mt msg] else [])).
Proof.
  intros p o. subst o.
  pose proof (WriteLog_cases Join mt msg t w) as H. cbv zeta in H. fold p in H.
  assert (∀ pre f now we con ce,
    createdOrFound p pre → fileName f = p → consoleEvents t mt msg con →
    fileWrites (pre ++ [EvOpenFile p (inl f);
        EvWrite f (logEntry (fileFlags t) now "twlc.go" 62 (Sprintf_tag mt msg)) we]
        ++ con ++ [EvClose f ce])
    = [(p, logEntry (fileFlags t) now "twlc.go" 62 (Sprintf_tag mt msg))]) as Hfw.
  { intros pre f now we con ce Hpre Hf Hcon. rewrite !fileWrites_app.
    destruct (createdOrFound_quiet p pre Hpre) as (_ & -> & _).
    destruct (consolePrints_held _ _ _ _ Hcon) as [-> _]. cbn. by rewrite Hf. }
  split.
  - intros path data Hin. destruct (SaveInLogFile t).
    + destruct H as [_ [(se & e & now & _ & _ & _ & Hev) | [(pre & e & now & _ & Hpre & _ & Hev)
        | (pre & f & now & we & con & ce & _ & Hpre & Hf & Hcon & Hev)]]]; rewrite Hev in Hin.
      * cbn in Hin. by apply elem_of_nil in Hin.
      * rewrite fileWrites_app in Hin.
        destruct (createdOrFound_quiet p pre Hpre) as (_ & Hq & _). rewrite Hq in Hin.
        cbn in Hin. by apply elem_of_nil in Hin.
      * rewrite Hfw in Hin by done. apply list_elem_of_singleton in Hin as [= -> ->].
        split; [done|]. by exists now.
    + destruct H as (w' & con & Ho & Hcon). rewrite Ho in Hin. cbn [events] in Hin.
      destruct (consolePrints_held _ _ _ _ Hcon) as [Hq _]. rewrite Hq in Hin.
      by apply elem_of_nil in Hin.
  - intros Hr. destruct (SaveInLogFile t).
    + destruct H as [_ [(se & e & now & Hr' & _) | [(pre & e & now & Hr' & _)
        | (pre & f & now & we & con & ce & _ & Hpre & Hf & Hcon & Hev)]]]; [congruence..|].
      rewrite Hev. split.
      * exists now. by apply Hfw.
      * rewrite !consoleWrites_app.
        destruct (createdOrFound_quiet p pre Hpre) as (-> & _).
        destruct (consoleEvents_line _ _ _ _ now Hcon) as [now' Hline]. exists now'.
        cbn. by rewrite app_nil_r.
    + destruct H as (w' & con & -> & Hcon). cbn [events]. split.
      * exists (nextNow w). by destruct (consolePrints_held _ _ _ _ Hcon) as [-> _].
      * exact (consoleEvents_line _ _ _ _ (nextNow w) Hcon).
Qed.

Lemma NewTwlc_result a b c d e f dir w :
  let o := NewTwlc a b c d e f dir w in
  result o = Ret (mkTwlc a b c d e f dir "") ∨ result o = Exit 1%Z.
Proof.
  cbv zeta. unfold NewTwlc. rewrite run_bind.
  destruct (createLogDir_cases dir w)
    as [(se & _ & ->) | [(se & _ & Hr & _) | (se & e0 & now & _ & Hr & _)]].
  - by left.
  - destruct (createLogDir dir w) as [r w' tr]. cbn in Hr. subst r. by left.
  - destruct (createLogDir dir w) as [r w' tr]. cbn in Hr. subst r. by right.
Qed.

(** [NewTwlc] returns its logger whenever [os.MkdirAll] does not fail on
    the directory, and whenever the directory is found. *)
Lemma NewTwlc_returns a b c d e f dir w :
  mkdir_err w !! dir = None
  ∨ (stat_err w !! dir = None ∧ pathExists (files w) (dirs w) dir = true) →
  result (NewTwlc a b c d e f dir w) = Ret (mkTwlc a b c d e f dir "").
Proof.
  intros H. exec. destruct (stat_err w !! dir) as [se|] eqn:Hstat.
  - destruct H as [Hmk | [[=] _]]. destruct (os_IsNotExist (Some se)); exec; [|done].
    by rewrite Hmk.
  - destruct (pathExists (files w) (dirs w) dir) eqn:Hex; cbn [os_IsNotExist notExist]; exec;
      [done|].
    destruct H as [Hmk | [_ [=]]]. by rewrite Hmk.
Qed.

Lemma createLogDir_fatal dir w e :
  let o := createLogDir dir w in
  EvMkdirAll dir (Some e) ∈ events o →
  result o = Exit 1%Z
  ∧ ∃ se now, events o = [EvStat dir se; EvMkdirAll dir (Some e);
                          diagnostic now "Failed to create log directory: " e].
Proof.
  cbv zeta. intros Hin.
  destruct (createLogDir_cases dir w) as [(se & _ & Ho) | [(se & _ & _ & Hev & _)
    | (se & e0 & now & _ & Hr & Hev)]].
  - rewrite Ho in Hin. cbn in Hin. elems.
  - rewrite Hev in Hin. elems.
  - rewrite Hev in Hin |- *. elems. split; [done|]. by eexists _, _.
Qed.

(** A function that ends with [return x] does what came before. *)
Lemma then_ret_events {St A B} (m : M St A) (b : A → B) s :
  events ((m ≫= λ a, mret (b a)) s) = events (m s)
  ∧ (∀ code, result (m s) = Exit code → result ((m ≫= λ a, mret (b a)) s) = Exit code).
Proof.
  rewrite run_bind.
  destruct (m s) as [[a|code|e] s1 tr]; cbn; rewrite ?app_nil_r; split; congruence.
Qed.

Lemma outcome_eta {St A} (o : Outcome St A) :
  match o with mkOutcome r s tr => mkOutcome r s ([] ++ tr) end = o.
Proof. by destruct o. Qed.

Lemma DefaultTwlc_run Dir w exe :
  executable w = inl exe →
  DefaultTwlc Dir w
  = (createLogDir (Dir exe +:+ "/logs/");;
     mret (mkTwlc true true true true true true (Dir exe +:+ "/logs/") "")) w.
Proof.
  intros Hexe. unfold DefaultTwlc. rewrite run_bind.
  change (os_Executable w) with (mkOutcome (Ret (executable w)) w []). rewrite Hexe.
  cbv beta iota. apply outcome_eta.
Qed.

Lemma colorMap_lookup :
  colorMap !! Info = Some (ESC +:+ "[34m") ∧ colorMap !! Success = Some (ESC +:+ "[32m")
  ∧ colorMap !! Warning = Some (ESC +:+ "[33m") ∧ colorMap !! Error = Some (ESC +:+ "[31m")
  ∧ colorMap !! Debug = Some (ESC +:+ "[35m") ∧ colorMap !! Trace = Some (ESC +:+ "[36m").
Proof. vm_compute. repeat split. Qed.

(** * The claims *)

(** ** Console output *)

(** C1, as amended.  On a logger with console output enabled, colorization
    disabled and timestamps disabled, [WriteLog sev msg] returns and prints
    to the console exactly the line [[sev] msg] followed by one newline,
    and nothing else, whenever the file block does not end the process:
    file persistence is disabled, or the log file of the day can be
    created and opened. *)
Theorem console_plain_line (Join : string → string → string) (t : Twlc) (w : World)
    (sev : MessageType) (msg : string) :
  ShowInConsole t = true → ColorMessages t = false → WithTime t = false →
  let p := logPath Join (LogDir t) (nextNow w) in
  (SaveInLogFile t = true → create_err w !! p = None ∧ open_err w !! p = None) →
  let o := WriteLog Join sev msg (mkState t w) in
  result o = Ret tt ∧ consoleWrites (events o) = [("[" +:+ sev +:+ "] " +:+ msg) +:+ NL].
Proof.
  intros Hshow Hcol Htime p Hfile o. subst o.
  pose proof (WriteLog_cases Join sev msg t w) as H. cbv zeta in H. fold p in H.
  assert (∀ con, consoleEvents t sev msg con
                 → con = [EvStdout (Sprintf_tag sev msg +:+ NL)]) as Hcon.
  { intros con. unfold consoleEvents, consolePrints, forConsole.
    by rewrite Hshow, Hcol, Htime. }
  destruct (SaveInLogFile t).
  - destruct (Hfile eq_refl) as [Hc Ho].
    destruct H as [_ [(se & e & now & _ & _ & He & _) | [(pre & e & now & _ & _ & He & _)
      | (pre & f & now & we & con & ce & Hr & Hpre & _ & ->%Hcon & ->)]]]; [congruence..|].
    split; [done|]. rewrite consoleWrites_app.
    by destruct (createdOrFound_quiet p pre Hpre) as (-> & _).
  - by destruct H as (w' & con & -> & ->%Hcon).
Qed.

(** The line of C1 on a machine where the log file opens, with
    persistence enabled and with persistence disabled. *)
Lemma console_plain_line_witness :
  consoleWrites (events (WriteLog unixJoin Info "started" (mkState plainLogger quietWorld)))
  = ["[INFO] started" +:+ NL]
  ∧ consoleWrites (events (WriteLog unixJoin "AUDIT" "started"
        (mkState (mkTwlc false true false true true false "" "") lockedWorld)))
    = ["[AUDIT] started" +:+ NL].
Proof.
  split.
  - apply (console_plain_line unixJoin plainLogger quietWorld Info "started");
      try reflexivity.
    intros _. split; reflexivity.
  - apply (console_plain_line unixJoin (mkTwlc false true false true true false "" "")
             lockedWorld "AUDIT" "started"); try reflexivity.
    intros Hsave. discriminate Hsave.
Defined.

(** C1 as stated fails when file persistence is enabled too and the log
    file cannot be opened: [log.Fatalf] ends the process in the file
    block, the console shows its timestamped diagnostic and the line
    [[INFO] started] is never printed. *)
Lemma console_plain_line_counterexample :
  let o := WriteLog unixJoin Info "started" (mkState plainLogger lockedWorld) in
  ShowInConsole plainLogger = true ∧ ColorMessages plainLogger = false
  ∧ WithTime plainLogger = false
  ∧ result o = Exit 1%Z
  ∧ consoleWrites (events o)
    = ["2025/01/01 10:30:00 Failed to open log file: open /var/log/app/twlc_20250101.log: permission denied" +:+ NL]
  ∧ consoleWrites (events o) ≠ ["[INFO] started" +:+ NL].
Proof. vm_compute. split_and!; try reflexivity. discriminate. Qed.

(** ** Colorization *)

(** C2.  For a severity [sev] bound to [color] in the color table,
    [setColor] wraps the message as [color + msg + reset] in foreground
    mode and the tag as [color + sev + reset] in background mode, each mode
    on its own and both together; for a severity the table does not bind,
    tag and message come back unchanged.  The table binds the six
    severities, and the reset sequence is [ESC[0m].  A logger with
    colorization and foreground mode on, background mode and timestamps
    off, console on and persistence off prints exactly
    [[ERROR] ESC[31mdisk fullESC[0m] and a newline on [Error("disk full")]. *)
Theorem setColor_wraps (Join : string → string → string) :
  (∀ t sev msg color, colorMap !! sev = Some color →
     setColor t sev msg = (if BGColor t then color +:+ sev +:+ resetCode else sev,
                           if FGColor t then color +:+ msg +:+ resetCode else msg))
  ∧ (∀ t sev msg, colorMap !! sev = None → setColor t sev msg = (sev, msg))
  ∧ (colorMap !! Info = Some (ESC +:+ "[34m") ∧ colorMap !! Success = Some (ESC +:+ "[32m")
     ∧ colorMap !! Warning = Some (ESC +:+ "[33m") ∧ colorMap !! Error = Some (ESC +:+ "[31m")
     ∧ colorMap !! Debug = Some (ESC +:+ "[35m") ∧ colorMap !! Trace = Some (ESC +:+ "[36m")
     ∧ resetCode = ESC +:+ "[0m")
  ∧ (∀ t w,
       SaveInLogFile t = false → ShowInConsole t = true → ColorMessages t = true →
       FGColor t = true → BGColor t = false → WithTime t = false →
       Twlc_Error Join "disk full" (mkState t w)
       = mkOutcome (Ret tt) (mkState t w)
           [EvStdout ("[ERROR] " +:+ ESC +:+ "[31mdisk full" +:+ ESC +:+ "[0m" +:+ NL)]).
Proof.
  split_and!; try apply colorMap_lookup; try reflexivity.
  - intros t sev msg color H. unfold setColor. by rewrite H.
  - intros t sev msg H. unfold setColor. by rewrite H.
  - intros t w Hs Hc Hcol Hfg Hbg Ht. unfold Twlc_Error.
    rewrite WriteLog_console_only by done. unfold forConsole, setColor.
    destruct colorMap_lookup as (_ & _ & _ & -> & _). by rewrite Hcol, Hfg, Hbg.
Qed.

(** C2 on the console-only logger: a severity of the table, one outside
    it, and the scenario. *)
Lemma setColor_wraps_witness :
  setColor consoleLogger Error "disk full" = (Error, ESC +:+ "[31mdisk full" +:+ ESC +:+ "[0m")
  ∧ setColor colorLogger Trace "tick"
    = (ESC +:+ "[36mTRACE" +:+ ESC +:+ "[0m", ESC +:+ "[36mtick" +:+ ESC +:+ "[0m")
  ∧ setColor consoleLogger "AUDIT" "disk full" = ("AUDIT", "disk full")
  ∧ events (Twlc_Error unixJoin "disk full" (mkState consoleLogger quietWorld))
    = [EvStdout ("[ERROR] " +:+ ESC +:+ "[31mdisk full" +:+ ESC +:+ "[0m" +:+ NL)].
Proof.
  destruct (setColor_wraps unixJoin) as (Hin & Hout & _ & Hrun). split_and!.
  - apply (Hin consoleLogger Error "disk full" (ESC +:+ "[31m")). reflexivity.
  - apply (Hin colorLogger Trace "tick" (ESC +:+ "[36m")). reflexivity.
  - apply (Hout consoleLogger "AUDIT" "disk full"). reflexivity.
  - rewrite (Hrun consoleLogger quietWorld); reflexivity.
Defined.

(** ** What each sink receives *)

(** C4, as amended.  Colorization is applied once, after the file block
    and before the console block, so the console alone receives the
    colorized tag and message.  Every write to the log file carries the
    tag and the message as they were passed, [[sev] msg] behind the header
    of the logger, whether colorization is enabled or not; when the call
    returns the file sink has received that one entry if persistence is
    enabled, and the console sink its one line if console output is
    enabled, built from [setColor sev msg] when colorization is enabled and
    from [sev] and [msg] unchanged when it is disabled. *)
Theorem sink_contents (Join : string → string → string) (t : Twlc) (w : World)
    (sev : MessageType) (msg : string) :
  let p := logPath Join (LogDir t) (nextNow w) in
  let o := WriteLog Join sev msg (mkState t w) in
  (∀ path data, (path, data) ∈ fileWrites (events o) →
     path = p
     ∧ ∃ now, data = logEntry (fileFlags t) now "twlc.go" 62 ("[" +:+ sev +:+ "] " +:+ msg))
  ∧ (result o = Ret tt →
       (∃ now, fileWrites (events o)
               = if SaveInLogFile t
                 then [(p, logEntry (fileFlags t) now "twlc.go" 62
                             ("[" +:+ sev +:+ "] " +:+ msg))]
                 else [])
       ∧ (∃ now, consoleWrites (events o)
                 = if ShowInConsole t then [consoleLine t now sev msg] else []))
  ∧ (ColorMessages t = true → forConsole t sev msg = setColor t sev msg)
  ∧ (ColorMessages t = false → forConsole t sev msg = (sev, msg)).
Proof.
  intros p o. destruct (WriteLog_writes Join t w sev msg) as [Hfile Hret].
  split_and!; [exact Hfile | exact Hret | |]; unfold forConsole; by intros ->.
Qed.

(** C4 amended, on the colored and the plain logger. *)
Lemma sink_contents_witness :
  forConsole colorLogger Error "disk full"
  = (ESC +:+ "[31mERROR" +:+ ESC +:+ "[0m", ESC +:+ "[31mdisk full" +:+ ESC +:+ "[0m")
  ∧ forConsole plainLogger Error "disk full" = (Error, "disk full")
  ∧ (∃ now,
       fileWrites (events (WriteLog unixJoin Error "disk full"
                             (mkState colorLogger quietWorld)))
       = [(appLog, logEntry LstdFlags now "twlc.go" 62 "[ERROR] disk full")])
  ∧ (∃ now, "2025/01/01 10:30:00 [ERROR] disk full" +:+ NL
            = logEntry LstdFlags now "twlc.go" 62 "[ERROR] disk full").
Proof.
  destruct (sink_contents unixJoin colorLogger quietWorld Error "disk full")
    as (Hin & Hret & Hcol & _).
  destruct (sink_contents unixJoin plainLogger quietWorld Error "disk full")
    as (_ & _ & _ & Hplain).
  split_and!.
  - rewrite Hcol; reflexivity.
  - apply Hplain. reflexivity.
  - destruct (Hret eq_refl) as [[now Hfile] _]. exists now. exact Hfile.
  - destruct (Hin appLog ("2025/01/01 10:30:00 [ERROR] disk full" +:+ NL)) as [_ Hdata].
    + vm_compute. apply list_elem_of_In. simpl. tauto.
    + exact Hdata.
Defined.

(** C4 as stated fails: with colorization, persistence and console output
    all enabled, the file receives [[ERROR] disk full] without any escape
    sequence while the console receives the colorized tag and message. *)
Lemma sink_contents_counterexample :
  let o := WriteLog unixJoin Error "disk full" (mkState colorLogger quietWorld) in
  ColorMessages colorLogger = true ∧ SaveInLogFile colorLogger = true
  ∧ ShowInConsole colorLogger = true
  ∧ fileWrites (events o) = [(appLog, "2025/01/01 10:30:00 [ERROR] disk full" +:+ NL)]
  ∧ consoleWrites (events o)
    = ["[" +:+ ESC +:+ "[31mERROR" +:+ ESC +:+ "[0m] " +:+ ESC +:+ "[31mdisk full"
       +:+ ESC +:+ "[0m" +:+ NL]
  ∧ Forall (λ d, hasEscape d.2 = false) (fileWrites (events o))
  ∧ Forall (λ d, hasEscape d = true) (consoleWrites (events o)).
Proof. vm_compute. split_and!; try reflexivity; by repeat constructor. Qed.

(** ** The file handle *)

(** C5, as amended.  Every file handle a call of [WriteLog] acquires is
    released within that call: none is held when the call returns, none
    when the process exits on a fatal error, and the diagnostic of a fatal
    error is printed with no handle held.  The handle of the log file is
    released by the deferred [Close] as the call returns, that is after
    the colorization and console blocks: when the call returns with
    persistence enabled its trace is the events of [createLogFile], the
    opening, the write, the console block and last the [Close], and the
    console line is printed while the handle is held. *)
Theorem handle_scope (Join : string → string → string) (t : Twlc) (w : World)
    (sev : MessageType) (msg : string) :
  let p := logPath Join (LogDir t) (nextNow w) in
  let o := WriteLog Join sev msg (mkState t w) in
  held (events o) [] = []
  ∧ (∀ code, result o = Exit code → Forall (λ hs, hs = []) (heldAtConsole (events o) []))
  ∧ (SaveInLogFile t = true → result o = Ret tt →
       ∃ pre file data we con ce,
         events o = pre ++ [EvOpenFile p (inl file); EvWrite file data we]
                        ++ con ++ [EvClose file ce]
         ∧ held pre [] = [] ∧ consoleEvents t sev msg con
         ∧ heldAtConsole (events o) [] = (λ _, [file]) <$> consoleWrites con).
Proof.
  intros p o. subst o.
  pose proof (WriteLog_cases Join sev msg t w) as H. cbv zeta in H. fold p in H.
  destruct (SaveInLogFile t).
  - destruct H as [_ [(se & e & now & Hr & _ & _ & Hev) | [(pre & e & now & Hr & Hpre & _ & Hev)
      | (pre & f & now & we & con & ce & Hr & Hpre & Hf & Hcon & Hev)]]]; rewrite Hev, Hr.
    + split_and!; [done| |done]. intros _ _. repeat constructor.
    + destruct (createdOrFound_quiet p pre Hpre) as (_ & _ & Hh & Hc).
      rewrite held_app, heldAtConsole_app, Hh, Hc. split_and!; [done| |done].
      intros _ _. repeat constructor.
    + destruct (createdOrFound_quiet p pre Hpre) as (_ & _ & Hh & Hc).
      destruct (consolePrints_held _ _ _ _ Hcon) as [_ Hheld].
      split_and!; [|done|].
      * rewrite !held_app, Hh. cbn [held]. rewrite Hheld. cbn [held].
        by rewrite release_head.
      * intros _ _. eexists pre, f, _, we, con, ce. split_and!; [done..|].
        rewrite !heldAtConsole_app, Hc, Hh. cbn [heldAtConsole held app].
        rewrite app_nil_r.
        clear -Hcon. unfold consoleEvents, consolePrints in Hcon.
        destruct (ShowInConsole t); [destruct (WithTime t)|];
          [destruct Hcon as [now ->] | rewrite Hcon ..]; reflexivity.
  - destruct H as (w' & con & -> & Hcon). cbn [events result].
    destruct (consolePrints_held _ _ _ _ Hcon) as [_ ->]. done.
Qed.

(** C5 amended, on a write to file and console, where the console event
    comes between the write and the [Close], and on a write that exits. *)
Lemma handle_scope_witness :
  (∃ pre file data we con ce,
     events (WriteLog unixJoin Info "started" (mkState plainLogger quietWorld))
     = pre ++ [EvOpenFile appLog (inl file); EvWrite file data we] ++ con ++ [EvClose file ce]
     ∧ con = [EvStdout ("[INFO] started" +:+ NL)])
  ∧ Forall (λ hs, hs = [])
      (heldAtConsole
         (events (WriteLog unixJoin Info "started" (mkState plainLogger lockedWorld))) []).
Proof.
  split.
  - destruct (handle_scope unixJoin plainLogger quietWorld Info "started") as (_ & _ & H).
    destruct (H eq_refl eq_refl) as (pre & file & data & we & con & ce & Hev & _ & Hcon & _).
    exists pre, file, data, we, con, ce. split; [exact Hev | exact Hcon].
  - destruct (handle_scope unixJoin plainLogger lockedWorld Info "started") as (_ & H & _).
    apply (H 1%Z). reflexivity.
Defined.

(** C5 as stated fails: the handle of the log file is not released before
    the console block runs.  When [[INFO] started] is printed, descriptor 4
    on the log file is still held. *)
Lemma handle_scope_counterexample :
  let o := WriteLog unixJoin Info "started" (mkState plainLogger quietWorld) in
  SaveInLogFile plainLogger = true
  ∧ consoleWrites (events o) = ["[INFO] started" +:+ NL]
  ∧ heldAtConsole (events o) [] = [[mkFile 4 appLog]]
  ∧ ¬ Forall (λ hs, hs = []) (heldAtConsole (events o) []).
Proof.
  vm_compute. split_and!; try reflexivity. intros H. by inversion H.
Qed.

(** ** The log file of the day *)

Lemma logFileName_inj d1 d2 :
  validDate d1 → validDate d2 →
  "twlc_" +:+ formatDate d1 +:+ ".log" = "twlc_" +:+ formatDate d2 +:+ ".log" →
  dateOf d1 = dateOf d2.
Proof.
  intros H1 H2 Heq. apply (inj _) in Heq.
  pose proof (f_equal String.length Heq) as Hlen. rewrite !length_append in Hlen.
  apply append_inv_length in Heq as [Heq _]; [|simpl in Hlen; lia].
  by apply formatDate_inj.
Qed.

Lemma validDate_check t :
  (1 <=? Month t) && (Month t <=? 12) && (1 <=? Day t) && (Day t <=? 31) = true →
  validDate t.
Proof.
  intros H. repeat (apply andb_true_iff in H as [H ?]).
  unfold validDate. rewrite <- !Nat.leb_le. done.
Qed.

Lemma ioOK_sameOracles w w' p : sameOracles w w' → ioOK w p → ioOK w' p.
Proof.
  unfold sameOracles, ioOK. intros (_ & -> & -> & -> & ->). done.
Qed.

(** C3.  A write with file persistence enabled computes its target afresh
    from the date the clock gives at that write: the path is
    [Join LogDir ("twlc_" + date + ".log")], the date being the year on
    four digits (for years up to 9999), the month on two and the day on
    two with nothing in between, and it is the path left in [LogFilePath]
    and the one every write to a file of that call goes to.  Hence two
    writes on the same calendar date have the same target, and when the
    file operations succeed the file ends with the entries of both, each
    ended by a newline; two writes on different dates have different
    targets, and each file receives the entry of its own write. *)
Theorem daily_log_file (Join : string → string → string)
    (HJoin : JoinSeparatesNames Join) (t : Twlc) (w : World)
    (sev1 : MessageType) (msg1 : string) (sev2 : MessageType) (msg2 : string) :
  SaveInLogFile t = true →
  let o1 := WriteLog Join sev1 msg1 (mkState t w) in
  let o2 := WriteLog Join sev2 msg2 (final o1) in
  let d1 := nextNow w in
  let d2 := nextNow (world (final o1)) in
  let p1 := Join (LogDir t) ("twlc_" +:+ formatDate d1 +:+ ".log") in
  let p2 := Join (LogDir t) ("twlc_" +:+ formatDate d2 +:+ ".log") in
  let entry1 now := logEntry (fileFlags t) now "twlc.go" 62 ("[" +:+ sev1 +:+ "] " +:+ msg1) in
  let entry2 now := logEntry (fileFlags t) now "twlc.go" 62 ("[" +:+ sev2 +:+ "] " +:+ msg2) in
  (LogFilePath (self (final o1)) = p1 ∧ LogFilePath (self (final o2)) = p2
   ∧ (∀ path data, (path, data) ∈ fileWrites (events o1) → path = p1)
   ∧ (∀ path data, (path, data) ∈ fileWrites (events o2) → path = p2))
  ∧ (validDate d1 → Year d1 < 10 ^ 4 →
       formatDate d1 = itoa (Year d1) 4 +:+ itoa (Month d1) 2 +:+ itoa (Day d1) 2
       ∧ String.length (itoa (Year d1) 4) = 4 ∧ String.length (itoa (Month d1) 2) = 2
       ∧ String.length (itoa (Day d1) 2) = 2)
  ∧ (∀ now, endsWithNewline (entry1 now) = true ∧ endsWithNewline (entry2 now) = true)
  ∧ (dateOf d1 = dateOf d2 →
       p2 = p1
       ∧ (ioOK w p1 →
            result o1 = Ret tt ∧ result o2 = Ret tt
            ∧ ∃ now1 now2,
                files (world (final o2)) !! p1
                = Some (default "" (files w !! p1) +:+ entry1 now1 +:+ entry2 now2)))
  ∧ (validDate d1 → validDate d2 → dateOf d1 ≠ dateOf d2 →
       p1 ≠ p2
       ∧ (ioOK w p1 → ioOK w p2 →
            result o1 = Ret tt ∧ result o2 = Ret tt
            ∧ ∃ now1 now2,
                files (world (final o2)) !! p1
                = Some (default "" (files w !! p1) +:+ entry1 now1)
                ∧ files (world (final o2)) !! p2
                  = Some (default "" (files w !! p2) +:+ entry2 now2))).
Proof.
  intros Hsave o1 o2 d1 d2 p1 p2 entry1 entry2.
  pose proof (WriteLog_self Join sev1 msg1 t w) as Hself1. rewrite Hsave in Hself1.
  fold o1 in Hself1. change (logPath Join (LogDir t) (nextNow w)) with p1 in Hself1.
  destruct (final o1) as [t1 w1] eqn:Hfinal1. cbn [self world] in Hself1, d2. subst t1.
  pose proof (WriteLog_self Join sev2 msg2 (withLogFilePath t p1) w1) as Hself2.
  cbn [SaveInLogFile withLogFilePath LogDir] in Hself2. rewrite Hsave in Hself2.
  fold o2 in Hself2. change (logPath Join (LogDir t) (nextNow w1)) with p2 in Hself2.
  split_and!.
  - done.
  - by rewrite Hself2.
  - intros path data Hin. by destruct (WriteLog_writes Join t w sev1 msg1) as [Hw _];
      destruct (Hw path data Hin).
  - intros path data Hin.
    by destruct (WriteLog_writes Join (withLogFilePath t p1) w1 sev2 msg2) as [Hw _];
      destruct (Hw path data Hin).
  - intros (Hm & Hd) Hy. split; [done|]. rewrite !length_itoa; try done; simpl; lia.
  - intros now. split; apply logEntry_newline.
  - intros Hdate. assert (p2 = p1) as Hp.
    { unfold p1, p2. by rewrite (formatDate_dateOf d2 d1). }
    split; [done|]. intros Hok.
    destruct (WriteLog_ok Join sev1 msg1 t w Hsave Hok) as (w1' & tr1 & Ho1 & Hf1 & Hor1 & _).
    fold o1 in Ho1. rewrite Ho1 in Hfinal1. cbn [final] in Hfinal1.
    injection Hfinal1 as <-. change (logPath Join (LogDir t) (nextNow w)) with p1 in Hf1.
    assert (ioOK w1' (logPath Join (LogDir (withLogFilePath t p1)) (nextNow w1'))) as Hok2.
    { change (logPath _ _ _) with p2. rewrite Hp. by eapply ioOK_sameOracles. }
    destruct (WriteLog_ok Join sev2 msg2 (withLogFilePath t p1) w1' Hsave Hok2)
      as (w2 & tr2 & Ho2 & Hf2 & _).
    fold o2 in Ho2. change (logPath _ _ _) with p2 in Hf2. rewrite Hp in Hf2.
    rewrite Ho1, Ho2. split_and!; [done..|]. eexists _, _. cbn [final world].
    rewrite Hf2, lookup_insert_eq, Hf1, lookup_insert_eq. cbn [from_option]. unfold id.
    by rewrite append_assoc.
  - intros Hv1 Hv2 Hdate. assert (p1 ≠ p2) as Hp.
    { intros Heq. apply Hdate, logFileName_inj; [done..|].
      apply (HJoin (LogDir t)); [apply plainName_logFile.. | exact Heq]. }
    split; [done|]. intros Hok1 Hok2'.
    destruct (WriteLog_ok Join sev1 msg1 t w Hsave Hok1) as (w1' & tr1 & Ho1 & Hf1 & Hor1 & _).
    fold o1 in Ho1. rewrite Ho1 in Hfinal1. cbn [final] in Hfinal1.
    injection Hfinal1 as <-. change (logPath Join (LogDir t) (nextNow w)) with p1 in Hf1.
    assert (ioOK w1' (logPath Join (LogDir (withLogFilePath t p1)) (nextNow w1'))) as Hok2.
    { change (logPath _ _ _) with p2. by eapply ioOK_sameOracles. }
    destruct (WriteLog_ok Join sev2 msg2 (withLogFilePath t p1) w1' Hsave Hok2)
      as (w2 & tr2 & Ho2 & Hf2 & _).
    fold o2 in Ho2. change (logPath _ _ _) with p2 in Hf2.
    rewrite Ho1, Ho2. split_and!; [done..|]. eexists _, _. cbn [final world].
    rewrite Hf2, lookup_insert_eq, lookup_insert_ne, Hf1, lookup_insert_eq,
      lookup_insert_ne by done.
    done.
Qed.

(** C3 on two writes of the same morning, and on two writes either side of
    midnight. *)
Lemma daily_log_file_witness :
  (∃ now1 now2,
     files (world (final (WriteLog unixJoin Debug "two"
              (final (WriteLog unixJoin Info "one" (mkState plainLogger quietWorld))))))
       !! appLog
     = Some ("" +:+ logEntry LstdFlags now1 "twlc.go" 62 "[INFO] one"
                +:+ logEntry LstdFlags now2 "twlc.go" 62 "[DEBUG] two"))
  ∧ (appLog ≠ nextDayLog
     ∧ ∃ now1 now2,
         let o2 := WriteLog unixJoin Debug "two"
                     (final (WriteLog unixJoin Info "one"
                               (mkState plainLogger midnightWorld))) in
         files (world (final o2)) !! appLog
         = Some ("" +:+ logEntry LstdFlags now1 "twlc.go" 62 "[INFO] one")
         ∧ files (world (final o2)) !! nextDayLog
           = Some ("" +:+ logEntry LstdFlags now2 "twlc.go" 62 "[DEBUG] two"))
  ∧ (formatDate morning = "2025" +:+ "01" +:+ "01"
     ∧ String.length "2025" = 4 ∧ String.length "01" = 2 ∧ String.length "01" = 2).
Proof.
  split; [|split].
  - destruct (daily_log_file unixJoin unixJoin_plain_inj plainLogger quietWorld
                Info "one" Debug "two" eq_refl) as (_ & _ & _ & Hsame & _).
    destruct (Hsame eq_refl) as [_ Hfiles].
    destruct Hfiles as (_ & _ & now1 & now2 & H); [by repeat split|].
    exists now1, now2. exact H.
  - destruct (daily_log_file unixJoin unixJoin_plain_inj plainLogger midnightWorld
                Info "one" Debug "two" eq_refl) as (_ & _ & _ & _ & Hdiff).
    destruct Hdiff as [Hneq Hfiles];
      [apply validDate_check; vm_compute; reflexivity.. | vm_compute; discriminate |].
    split; [exact Hneq|].
    destruct Hfiles as (_ & _ & now1 & now2 & H); [by repeat split..|].
    exists now1, now2. exact H.
  - destruct (daily_log_file unixJoin unixJoin_plain_inj plainLogger quietWorld
                Info "one" Debug "two" eq_refl) as (_ & Hformat & _).
    apply Hformat; [apply validDate_check; vm_compute; reflexivity|].
    apply Nat.ltb_lt. vm_compute. reflexivity.
Defined.

(** ** Errors *)

(** C6, as amended.  A failure to create the log directory at
    construction, by [NewTwlc] or by [DefaultTwlc], a failure to create the
    log file and a failure to open it during a persisting write each end
    the process at once with exit status 1: the failed call is the last
    system call of the run, followed only by the diagnostic, which carries
    the text of the error, so nothing is retried.  A failure of
    [json.MarshalIndent] is returned to the caller of [StructToJson].  A
    failed write to the log file is not reported: the call goes on, prints
    its console line and returns. *)
Theorem fatal_errors (Join : string → string → string) (Dir : string → string)
    (value : Type) (MarshalIndent : value → string → string → string + error) :
  (∀ a b c d e f dir w err,
     let o := NewTwlc a b c d e f dir w in
     EvMkdirAll dir (Some err) ∈ events o →
     result o = Exit 1%Z
     ∧ ∃ se now, events o = [EvStat dir se; EvMkdirAll dir (Some err);
                             diagnostic now "Failed to create log directory: " err])
  ∧ (∀ w exe err,
       executable w = inl exe →
       let dir := Dir exe +:+ "/logs/" in
       let o := DefaultTwlc Dir w in
       EvMkdirAll dir (Some err) ∈ events o →
       result o = Exit 1%Z
       ∧ ∃ se now, events o = [EvStat dir se; EvMkdirAll dir (Some err);
                               diagnostic now "Failed to create log directory: " err])
  ∧ (∀ t w sev msg path err,
       let o := WriteLog Join sev msg (mkState t w) in
       EvCreate path (inr err) ∈ events o →
       result o = Exit 1%Z
       ∧ ∃ se now, events o = [EvStat path se; EvCreate path (inr err);
                               diagnostic now "Failed to create log file: " err])
  ∧ (∀ t w sev msg path err,
       let o := WriteLog Join sev msg (mkState t w) in
       EvOpenFile path (inr err) ∈ events o →
       result o = Exit 1%Z
       ∧ ∃ pre now, createdOrFound path pre
           ∧ events o = pre ++ [EvOpenFile path (inr err);
                                diagnostic now "Failed to open log file: " err])
  ∧ (∀ v s err,
       MarshalIndent v "" "    " = inr err →
       StructToJson value MarshalIndent v s
       = mkOutcome (Ret ("", Some (Errorf_json err))) s [])
  ∧ (∀ t w sev msg file data err,
       let o := WriteLog Join sev msg (mkState t w) in
       EvWrite file data (Some err) ∈ events o →
       result o = Ret tt
       ∧ ∃ now, consoleWrites (events o)
                = if ShowInConsole t then [consoleLine t now sev msg] else []).
Proof.
  split_and!.
  - intros a b c d e f dir w err o Hin. subst o. unfold NewTwlc in *.
    destruct (then_ret_events (createLogDir dir) (λ _, mkTwlc a b c d e f dir "") w)
      as [Hev Hr].
    rewrite Hev in Hin |- *. destruct (createLogDir_fatal dir w err Hin) as [Hexit Hshape].
    split; [by apply Hr | done].
  - intros w exe err Hexe dir o Hin. subst o. rewrite (DefaultTwlc_run Dir w exe Hexe) in *.
    fold dir in Hin |- *.
    destruct (then_ret_events (createLogDir dir)
                (λ _, mkTwlc true true true true true true dir "") w) as [Hev Hr].
    rewrite Hev in Hin |- *. destruct (createLogDir_fatal dir w err Hin) as [Hexit Hshape].
    split; [by apply Hr | done].
  - intros t w sev msg path err o Hin. subst o.
    pose proof (WriteLog_cases Join sev msg t w) as H. cbv zeta in H.
    destruct (SaveInLogFile t).
    + destruct H as [_ [(se & e & now & Hr & _ & _ & Hev) | [(pre & e & now & _ & Hpre & _ & Hev)
        | (pre & f & now & we & con & ce & _ & Hpre & _ & Hcon & Hev)]]]; rewrite Hev in Hin |- *.
      * elems. split; [done|]. by eexists _, _.
      * apply elem_of_app in Hin as [Hin | Hin]; [|elems].
        destruct (createdOrFound_events _ _ _ Hpre Hin)
          as [[? [=]] | [[? [=]] | (? & ? & [=])]].
      * rewrite !elem_of_app in Hin. destruct Hin as [Hin | [Hin | [Hin | Hin]]];
          [|elems| |elems].
        -- destruct (createdOrFound_events _ _ _ Hpre Hin)
             as [[? [=]] | [[? [=]] | (? & ? & [=])]].
        -- destruct (consolePrints_events _ _ _ _ _ Hcon Hin) as [[? [=]] | [? [=]]].
    + destruct H as (w' & con & Ho & Hcon). rewrite Ho in Hin. cbn [events] in Hin.
      destruct (consolePrints_events _ _ _ _ _ Hcon Hin) as [[? [=]] | [? [=]]].
  - intros t w sev msg path err o Hin. subst o.
    pose proof (WriteLog_cases Join sev msg t w) as H. cbv zeta in H.
    destruct (SaveInLogFile t).
    + destruct H as [_ [(se & e & now & Hr & _ & _ & Hev) | [(pre & e & now & Hr & Hpre & _ & Hev)
        | (pre & f & now & we & con & ce & _ & Hpre & _ & Hcon & Hev)]]]; rewrite Hev in Hin |- *.
      * elems.
      * apply elem_of_app in Hin as [Hin | Hin].
        -- destruct (createdOrFound_events _ _ _ Hpre Hin)
             as [[? [=]] | [[? [=]] | (? & ? & [=])]].
        -- elems. split; [done|]. by eexists _, _.
      * rewrite !elem_of_app in Hin. destruct Hin as [Hin | [Hin | [Hin | Hin]]];
          [|elems| |elems].
        -- destruct (createdOrFound_events _ _ _ Hpre Hin)
             as [[? [=]] | [[? [=]] | (? & ? & [=])]].
        -- destruct (consolePrints_events _ _ _ _ _ Hcon Hin) as [[? [=]] | [? [=]]].
    + destruct H as (w' & con & Ho & Hcon). rewrite Ho in Hin. cbn [events] in Hin.
      destruct (consolePrints_events _ _ _ _ _ Hcon Hin) as [[? [=]] | [? [=]]].
  - intros v s err H. unfold StructToJson. by rewrite H.
  - intros t w sev msg file data err o Hin. subst o.
    destruct (WriteLog_writes Join t w sev msg) as (_ & Hret).
    pose proof (WriteLog_cases Join sev msg t w) as H. cbv zeta in H.
    assert (result (WriteLog Join sev msg (mkState t w)) = Ret tt) as Hr.
    { destruct (SaveInLogFile t).
      - destruct H as [_ [(se & e & now & Hr & _ & _ & Hev) | [(pre & e & now & Hr & Hpre & _ & Hev)
          | (pre & f & now & we & con & ce & Hr & _)]]]; [rewrite Hev in Hin..|done].
        + elems.
        + apply elem_of_app in Hin as [Hin | Hin]; [|elems].
          destruct (createdOrFound_events _ _ _ Hpre Hin)
            as [[? [=]] | [[? [=]] | (? & ? & [=])]].
      - by destruct H as (w' & con & -> & _). }
    split; [done|]. by destruct (Hret Hr) as [_ ?].
Qed.

(** C6 amended: the directory cannot be made, for [NewTwlc] and for
    [DefaultTwlc]; the log file cannot be created; it cannot be opened;
    the encoder refuses; the disk is full. *)
Lemma fatal_errors_witness :
  result (NewTwlc true true false false false false "/var/log/app" readOnlyWorld) = Exit 1%Z
  ∧ result (DefaultTwlc unixDir readOnlyWorld) = Exit 1%Z
  ∧ result (WriteLog unixJoin Info "started" (mkState plainLogger noCreateWorld)) = Exit 1%Z
  ∧ result (WriteLog unixJoin Info "started" (mkState plainLogger lockedWorld)) = Exit 1%Z
  ∧ result (StructToJson unit refuseAll tt (mkState plainLogger quietWorld))
    = Ret ("", Some (mkError false
         "failed to convert struct to JSON: json: unsupported type: chan int"))
  ∧ result (WriteLog unixJoin Info "started" (mkState plainLogger fullWorld)) = Ret tt.
Proof.
  destruct (fatal_errors unixJoin unixDir unit refuseAll)
    as (Hnew & Hdefault & Hcreate & Hopen & Hjson & Hwrite).
  split_and!.
  - apply (Hnew true true false false false false "/var/log/app" readOnlyWorld
             (mkError false "mkdir /var/log/app: read-only file system")).
    vm_compute. apply list_elem_of_In. simpl. tauto.
  - apply (Hdefault readOnlyWorld "/usr/bin/app"
             (mkError false "mkdir /usr/bin/logs/: read-only file system") eq_refl).
    vm_compute. apply list_elem_of_In. simpl. tauto.
  - apply (Hcreate plainLogger noCreateWorld Info "started" appLog
             (mkError false ("open " +:+ appLog +:+ ": permission denied"))).
    vm_compute. apply list_elem_of_In. simpl. tauto.
  - apply (Hopen plainLogger lockedWorld Info "started" appLog
             (mkError false ("open " +:+ appLog +:+ ": permission denied"))).
    vm_compute. apply list_elem_of_In. simpl. tauto.
  - rewrite (Hjson tt (mkState plainLogger quietWorld)
               (mkError false "json: unsupported type: chan int") eq_refl).
    reflexivity.
  - apply (Hwrite plainLogger fullWorld Info "started" (mkFile 3 appLog)
             ("2025/01/01 10:30:00 [INFO] started" +:+ NL)
             (mkError false ("write " +:+ appLog +:+ ": no space left on device"))).
    vm_compute. apply list_elem_of_In. simpl. tauto.
Defined.

(** C6 as stated fails in its last part: errors are swallowed.  With the
    disk full the write to the log file fails and so does the deferred
    [Close]; the call returns as if nothing had happened, the console
    shows no diagnostic and the entry is lost. *)
Lemma fatal_errors_counterexample :
  let o := WriteLog unixJoin Info "started" (mkState plainLogger fullWorld) in
  result o = Ret tt
  ∧ failures (events o)
    = [mkError false "write /var/log/app/twlc_20250101.log: no space left on device";
       mkError false "close /var/log/app/twlc_20250101.log: no space left on device"]
  ∧ consoleWrites (events o) = ["[INFO] started" +:+ NL]
  ∧ files (world (final o)) !! appLog = Some "".
Proof. vm_compute. by split_and!. Qed.

(** C7.  [StructToJson v] always returns to its caller, leaving the state
    as it was: the text [json.MarshalIndent] gives for [v] with an empty
    prefix and an indentation of four spaces, with no error; or, when
    [json.MarshalIndent] fails, the empty string with an error whose text
    is [failed to convert struct to JSON: ] followed by the text of the
    cause. *)
Theorem StructToJson_result (value : Type)
    (MarshalIndent : value → string → string → string + error) (v : value) (s : State) :
  (∃ jsonData, MarshalIndent v "" "    " = inl jsonData
     ∧ StructToJson value MarshalIndent v s = mkOutcome (Ret (jsonData, None)) s [])
  ∨ (∃ err, MarshalIndent v "" "    " = inr err
       ∧ StructToJson value MarshalIndent v s
         = mkOutcome (Ret ("", Some (Errorf_json err))) s []
       ∧ errorText (Errorf_json err)
         = "failed to convert struct to JSON: " +:+ errorText err).
Proof.
  unfold StructToJson. destruct (MarshalIndent v "" "    ") as [jsonData | err].
  - left. by exists jsonData.
  - right. by exists err.
Qed.

(** ** The configuration *)

(** C9.  A call of [WriteLog] or of one of its six shorthands leaves
    [SaveInLogFile], [ShowInConsole], [ColorMessages], [BGColor],
    [FGColor], [WithTime] and [LogDir] as they were, whether it returns or
    ends the process, and so does any sequence of such calls:
    [LogFilePath] is the only field they ever change. *)
Theorem configuration_is_frozen (Join : string → string → string) :
  (∀ c s, config (self (final (call Join c s))) = config (self s))
  ∧ (∀ cs s, config (self (final (calls Join cs s))) = config (self s)).
Proof.
  assert (∀ c t w, config (self (final (call Join c (mkState t w)))) = config t) as Hone.
  { intros c t w. destruct (call_WriteLog Join c) as (mt & msg & ->).
    rewrite WriteLog_self. by destruct (SaveInLogFile t). }
  split.
  - intros c [t w]. apply Hone.
  - intros cs s.
    apply (calls_invariant Join (λ t, config t = config (self s))); [|done].
    intros c t w <-. apply Hone.
Qed.

(** C10.  [NewTwlc] returns a logger whose [LogFilePath] is empty: it
    returns the logger made of its arguments, with the field empty,
    whenever [os.MkdirAll] does not fail on the directory and whenever the
    directory is found, and the only other way it can end is the exit
    with status 1.  Any number of writes with file persistence disabled
    all return and leave the field empty.  A write with persistence
    enabled sets it to the path of the log file of the day, which is not
    empty. *)
Theorem LogFilePath_lifecycle (Join : string → string → string) (Hne : JoinNonEmpty Join) :
  (∀ a b c d e f dir w,
     let o := NewTwlc a b c d e f dir w in
     (∀ t, result o = Ret t → LogFilePath t = "")
     ∧ (result o = Ret (mkTwlc a b c d e f dir "") ∨ result o = Exit 1%Z)
     ∧ (mkdir_err w !! dir = None → result o = Ret (mkTwlc a b c d e f dir ""))
     ∧ (stat_err w !! dir = None → pathExists (files w) (dirs w) dir = true →
          result o = Ret (mkTwlc a b c d e f dir ""))
     ∧ LogFilePath (mkTwlc a b c d e f dir "") = "")
  ∧ (∀ cs t w,
       SaveInLogFile t = false → LogFilePath t = "" →
       let o := calls Join cs (mkState t w) in
       result o = Ret tt ∧ LogFilePath (self (final o)) = "")
  ∧ (∀ c t w,
       SaveInLogFile t = true →
       let o := call Join c (mkState t w) in
       LogFilePath (self (final o)) = logPath Join (LogDir t) (nextNow w)
       ∧ LogFilePath (self (final o)) ≠ "").
Proof.
  split_and!.
  - intros a b c d e f dir w o. subst o.
    pose proof (NewTwlc_result a b c d e f dir w) as H. cbv zeta in H.
    split_and!; [|done| | |done].
    + intros t Ht. rewrite Ht in H. by destruct H as [[= ->] | [=]].
    + intros Hmk. apply NewTwlc_returns. by left.
    + intros Hstat Hex. apply NewTwlc_returns. by right.
  - intros cs t w Hs Hp o. subst o.
    destruct (calls_without_file Join cs t w Hs) as (w' & tr & ->). done.
  - intros c t w Hs o. subst o. destruct (call_WriteLog Join c) as (mt & msg & ->).
    rewrite WriteLog_self, Hs. cbn [LogFilePath withLogFilePath]. split; [done|].
    apply Hne, plainName_logFile.
Qed.

(** C10 on loggers built by [NewTwlc], one on a directory that is there
    and one on a directory that is made: both are returned with the field
    empty.  Then two writes without persistence, and the first write with
    it. *)
Lemma LogFilePath_lifecycle_witness :
  (result (NewTwlc false true true false true false "/var/log/app" quietWorld)
   = Ret consoleLogger
   ∧ LogFilePath consoleLogger = "")
  ∧ result (NewTwlc true true false false false false "/srv/logs" quietWorld)
    = Ret (mkTwlc true true false false false false "/srv/logs" "")
  ∧ LogFilePath (self (final (calls unixJoin [CallInfo "up"; CallDebug "x"]
                   (mkState consoleLogger quietWorld)))) = ""
  ∧ LogFilePath (self (final (call unixJoin (CallInfo "up")
                   (mkState plainLogger quietWorld)))) ≠ "".
Proof.
  destruct (LogFilePath_lifecycle unixJoin unixJoin_plain_nonempty) as (Hnew & Hoff & Hon).
  split_and!.
  - destruct (Hnew false true true false true false "/var/log/app" quietWorld)
      as (_ & _ & _ & Hfound & _).
    apply Hfound; reflexivity.
  - destruct (Hnew false true true false true false "/var/log/app" quietWorld)
      as (Hempty & _ & _ & Hfound & _).
    apply (Hempty consoleLogger). apply Hfound; reflexivity.
  - destruct (Hnew true true false false false false "/srv/logs" quietWorld)
      as (_ & _ & Hmade & _).
    apply Hmade. reflexivity.
  - apply (Hoff [CallInfo "up"; CallDebug "x"] consoleLogger quietWorld); reflexivity.
  - apply (Hon (CallInfo "up") plainLogger quietWorld). reflexivity.
Defined.

(** * Further properties *)

(** ** Construction *)

Lemma os_Stat_run path w :
  os_Stat path w = mkOutcome (Ret (statAnswer w path)) w [EvStat path (statAnswer w path)].
Proof. reflexivity. Qed.

(** [createLogDir] in full. *)
Lemma createLogDir_run d w :
  createLogDir d w =
    if reportedMissing w d then
      match mkdir_err w !! d with
      | Some e =>
          mkOutcome (Exit 1%Z) (set_ticks (S (ticks w)) w)
            [EvStat d (statAnswer w d); EvMkdirAll d (Some e);
             diagnostic (nextNow w) "Failed to create log directory: " e]
      | None =>
          mkOutcome (Ret tt) (set_dirs ({[d]} ∪ dirs w) w)
            [EvStat d (statAnswer w d); EvMkdirAll d None]
      end
    else mkOutcome (Ret tt) w [EvStat d (statAnswer w d)].
Proof.
  unfold createLogDir. rewrite run_bind, os_Stat_run. unfold reportedMissing.
  destruct (os_IsNotExist (statAnswer w d)); [|reflexivity].
  exec. destruct (mkdir_err w !! d); reflexivity.
Qed.

Lemma NewTwlc_run a b c d e f dir w :
  NewTwlc a b c d e f dir w =
    if reportedMissing w dir then
      match mkdir_err w !! dir with
      | Some err =>
          mkOutcome (Exit 1%Z) (set_ticks (S (ticks w)) w)
            [EvStat dir (statAnswer w dir); EvMkdirAll dir (Some err);
             diagnostic (nextNow w) "Failed to create log directory: " err]
      | None =>
          mkOutcome (Ret (mkTwlc a b c d e f dir "")) (set_dirs ({[dir]} ∪ dirs w) w)
            [EvStat dir (statAnswer w dir); EvMkdirAll dir None]
      end
    else mkOutcome (Ret (mkTwlc a b c d e f dir "")) w [EvStat dir (statAnswer w dir)].
Proof.
  unfold NewTwlc. rewrite run_bind, createLogDir_run.
  destruct (reportedMissing w dir); [destruct (mkdir_err w !! dir)|]; reflexivity.
Qed.

Lemma reportedMissing_truthful w path :
  stat_err w !! path = None →
  reportedMissing w path = negb (pathExists (files w) (dirs w) path).
Proof.
  unfold reportedMissing, statAnswer. intros ->.
  by destruct (pathExists (files w) (dirs w) path).
Qed.

Lemma statAnswer_truthful_exists w path :
  stat_err w !! path = None → pathExists (files w) (dirs w) path = true →
  statAnswer w path = None.
Proof. unfold statAnswer. by intros -> ->. Qed.



(** X2.  Construction is idempotent: once [NewTwlc] has returned for a
    directory on which [os.Stat] answers truthfully, building another
    logger on the same directory, with any flags, only looks the directory
    up: it returns at once, calls no [os.MkdirAll] and changes nothing. *)
Theorem NewTwlc_again (a b c d e f a' b' c' d' e' f' : bool) (dir : string) (w : World)
    (t : Twlc) :
  stat_err w !! dir = None →
  result (NewTwlc a b c d e f dir w) = Ret t →
  let w' := final (NewTwlc a b c d e f dir w) in
  NewTwlc a' b' c' d' e' f' dir w'
  = mkOutcome (Ret (mkTwlc a' b' c' d' e' f' dir "")) w' [EvStat dir None].
Proof.
  intros Hstat Hret w'.
  assert (stat_err w' !! dir = None ∧ pathExists (files w') (dirs w') dir = true)
    as [Hstat' Hex].
  { subst w'. rewrite NewTwlc_run in Hret |- *.
    pose proof (reportedMissing_truthful w dir Hstat) as Hmiss.
    destruct (reportedMissing w dir); [destruct (mkdir_err w !! dir)|];
      cbn [result final stat_err files dirs set_dirs] in *; [done | |].
    - split; [done|]. unfold pathExists. apply orb_true_iff. right.
      apply bool_decide_eq_true. set_solver.
    - split; [done|]. symmetry in Hmiss. by apply negb_false_iff in Hmiss. }
  rewrite NewTwlc_run, reportedMissing_truthful, Hex by done. cbn [negb].
  by rewrite statAnswer_truthful_exists.
Qed.

(** X2 on a directory that the first construction makes. *)
Lemma NewTwlc_again_witness :
  NewTwlc false true true true true true "/srv/logs"
    (final (NewTwlc true true false false false false "/srv/logs" quietWorld))
  = mkOutcome (Ret (mkTwlc false true true true true true "/srv/logs" ""))
      (final (NewTwlc true true false false false false "/srv/logs" quietWorld))
      [EvStat "/srv/logs" None].
Proof.
  apply (NewTwlc_again true true false false false false false true true true true true
           "/srv/logs" quietWorld (mkTwlc true true false false false false "/srv/logs" ""));
    reflexivity.
Defined.

(** ** The file block and the world *)

(** The file block of [WriteLog], seen from the world. *)
Lemma persist_world Join mt msg t w :
  SaveInLogFile t = true →
  let p := logPath Join (LogDir t) (nextNow w) in
  let o := persist Join mt msg (mkState t w) in
  let w' := world (final o) in
  let entry := logEntry (fileFlags t) (clock w (S (ticks w))) "twlc.go" 62
                 (Sprintf_tag mt msg) in
  sameBut p w w'
  ∧ (stat_err w !! p = None → ∀ old, files w !! p = Some old →
       files w' !! p = Some old ∨ files w' !! p = Some (old +:+ entry))
  ∧ createCalls (events o) = (if reportedMissing w p then [p] else [])
  ∧ mkdirCalls (events o) = []
  ∧ stdoutWrites (events o) = []
  ∧ (result o = Exit 1%Z
     ↔ (reportedMissing w p = true ∧ is_Some (create_err w !! p))
       ∨ is_Some (open_err w !! p))
  ∧ (result o = Exit 1%Z →
       ∃ what err, stderrWrites (events o)
                   = [logEntry LstdFlags (clock w (S (ticks w))) "" 0
                        (what +:+ errorText err)])
  ∧ (∀ ds, result o = Ret ds →
       ticks w' = S (S (ticks w))
       ∧ fileWrites (events o) = [(p, entry)]
       ∧ stderrWrites (events o) = []
       ∧ (stat_err w !! p = None → write_err w !! p = None →
            files w' !! p = Some (default "" (files w !! p) +:+ entry))).
Proof.
  intros Hsave. unfold logPath, nextNow, reportedMissing, statAnswer. set (p := Join _ _).
  exec. rewrite Hsave. exec. fold p.
  destruct (stat_err w !! p) as [se|] eqn:Hstat.
  all: repeat (split_innermost; exec).
  all: unfold sameBut;
    cbn [files dirs next_fd clock ticks executable stat_err mkdir_err create_err open_err
         write_err close_err fileWrites fileName createCalls mkdirCalls stdoutWrites
         stderrWrites].
  all: split_and!; try done; try lia.
  all: try (intros q Hq; by rewrite ?lookup_insert_ne).
  all: try (intros; simplify_map_eq; eauto; fail).
  all: try (intros _ old Hold;
    match goal with H : pathExists _ _ _ = false |- _ => apply pathExists_false in H end;
    congruence).
  all: try (eexists _, _; reflexivity).
  all: try (split; [first [done | intros _; first [by right; eauto | by left; eauto]]
                   | intros [[? [? ?]] | [? ?]]; by simplify_eq]).
  intros ds _. split_and!; [done..|]. intros _ _.
  match goal with H : pathExists _ _ _ = false |- _ => apply pathExists_false in H as -> end.
  by rewrite !lookup_insert_eq.
Qed.

Lemma stdoutWrites_app tr1 tr2 :
  stdoutWrites (tr1 ++ tr2) = stdoutWrites tr1 ++ stdoutWrites tr2.
Proof.
  induction tr1 as [|[] tr1 IH]; cbn [app stdoutWrites]; rewrite ?IH; reflexivity.
Qed.

Lemma stderrWrites_app tr1 tr2 :
  stderrWrites (tr1 ++ tr2) = stderrWrites tr1 ++ stderrWrites tr2.
Proof.
  induction tr1 as [|[] tr1 IH]; cbn [app stderrWrites]; rewrite ?IH; reflexivity.
Qed.

Lemma mkdirCalls_app tr1 tr2 : mkdirCalls (tr1 ++ tr2) = mkdirCalls tr1 ++ mkdirCalls tr2.
Proof.
  induction tr1 as [|[] tr1 IH]; cbn [app mkdirCalls]; rewrite ?IH; reflexivity.
Qed.

Lemma createCalls_app tr1 tr2 :
  createCalls (tr1 ++ tr2) = createCalls tr1 ++ createCalls tr2.
Proof.
  induction tr1 as [|[] tr1 IH]; cbn [app createCalls]; rewrite ?IH; reflexivity.
Qed.

(** The console block in full. *)
Lemma console_exact mt msg t w :
  console mt msg (mkState t w) =
    if ShowInConsole t then
      if WithTime t then
        mkOutcome (Ret tt) (mkState t (set_ticks (S (ticks w)) w))
          [EvStderr (logEntry LstdFlags (nextNow w) "" 0 (Sprintf_tag mt msg))]
      else mkOutcome (Ret tt) (mkState t w) [EvStdout (Sprintf_tag mt msg +:+ NL)]
    else mkOutcome (Ret tt) (mkState t w) [].
Proof. exec. by destruct (ShowInConsole t); [destruct (WithTime t)|]. Qed.

(** The part of [WriteLog] that comes after the file block, the receiver
    being [t] and [ds] the calls deferred. *)
Lemma after_persist Join mt msg t w :
  SaveInLogFile t = false →
  WriteLog Join mt msg (mkState t w)
  = if ShowInConsole t then
      mkOutcome (Ret tt)
        (mkState t (if WithTime t then set_ticks (S (ticks w)) w else w))
        [consoleEvent t (nextNow w) mt msg]
    else mkOutcome (Ret tt) (mkState t w) [].
Proof.
  intros Hs. unfold WriteLog. rewrite run_bind, persist_off by done.
  rewrite run_get_self. cbn [self]. unfold consoleEvent, consoleLine, forConsole.
  destruct (if ColorMessages t then _ else _) as [mt' msg']. cbn [fst snd].
  rewrite run_bind, console_exact.
  by destruct (ShowInConsole t); [destruct (WithTime t)|].
Qed.

(** A persisting [WriteLog], seen from the world. *)
Lemma WriteLog_on Join mt msg t w :
  SaveInLogFile t = true →
  let p := logPath Join (LogDir t) (nextNow w) in
  let o := WriteLog Join mt msg (mkState t w) in
  let w' := world (final o) in
  let entry := logEntry (fileFlags t) (clock w (S (ticks w))) "twlc.go" 62
                 (Sprintf_tag mt msg) in
  sameBut p w w'
  ∧ (stat_err w !! p = None → ∀ old, files w !! p = Some old →
       files w' !! p = Some old ∨ files w' !! p = Some (old +:+ entry))
  ∧ createCalls (events o) = (if reportedMissing w p then [p] else [])
  ∧ mkdirCalls (events o) = []
  ∧ (result o = Exit 1%Z ∨ result o = Ret tt)
  ∧ (result o = Exit 1%Z
     ↔ (reportedMissing w p = true ∧ is_Some (create_err w !! p))
       ∨ is_Some (open_err w !! p))
  ∧ (result o = Exit 1%Z →
       stdoutWrites (events o) = []
       ∧ ∃ what err, stderrWrites (events o)
                     = [logEntry LstdFlags (clock w (S (ticks w))) "" 0
                          (what +:+ errorText err)])
  ∧ (result o = Ret tt →
       ticks w' = (if ShowInConsole t && WithTime t then 3 else 2) + ticks w
       ∧ fileWrites (events o) = [(p, entry)]
       ∧ stdoutWrites (events o)
         = (if ShowInConsole t && negb (WithTime t)
            then [consoleLine t (clock w (2 + ticks w)) mt msg] else [])
       ∧ stderrWrites (events o)
         = (if ShowInConsole t && WithTime t
            then [consoleLine t (clock w (2 + ticks w)) mt msg] else [])
       ∧ (stat_err w !! p = None → write_err w !! p = None →
            files w' !! p = Some (default "" (files w !! p) +:+ entry))).
Proof.
  intros Hsave. cbv zeta.
  destruct (persist_world Join mt msg t w Hsave)
    as (Hsame & Happ & Hcreate & Hmk & Hout & Hexit & Hdiag & Hret).
  destruct (persist_on_cases Join mt msg t w Hsave) as [Hself Hcases].
  set (p := logPath Join (LogDir t) (nextNow w)) in *.
  set (entry := logEntry (fileFlags t) (clock w (S (ticks w))) "twlc.go" 62
                  (Sprintf_tag mt msg)) in *.
  unfold WriteLog. rewrite run_bind.
  destruct (persist Join mt msg (mkState t w)) as [r [t1 w1] tr].
  cbn [self world final result events] in *. subst t1.
  destruct Hcases as [(se & e & now & -> & _) | [(pre & e & now & -> & _)
    | (pre & f & now & we & -> & Hpre & Hf & Htr)]].
  - cbn [result final events world].
    split_and!; [done..| by left | split; [intros _; by apply Hexit | done]
                | intros _; split; [done | by apply Hdiag] | done].
  - cbn [result final events world].
    split_and!; [done..| by left | split; [intros _; by apply Hexit | done]
                | intros _; split; [done | by apply Hdiag] | done].
  - destruct (Hret _ eq_refl) as (Hticks & Hfw & Herr & Hfile).
    rewrite run_get_self. cbn [self].
    change (ColorMessages (withLogFilePath t p)) with (ColorMessages t).
    rewrite setColor_withLogFilePath.
    unfold consoleLine, forConsole.
    destruct (if ColorMessages t then _ else _) as [mt' msg']. cbn [fst snd].
    rewrite run_bind, console_exact.
    change (ShowInConsole (withLogFilePath t p)) with (ShowInConsole t).
    change (WithTime (withLogFilePath t p)) with (WithTime t).
    unfold nextNow. rewrite Hticks.
    destruct Hsame as (Hq & Hd & Hclock & Hexe & Hse & Hme & Hce & Hoe & Hwe & Hcl & Hfd & Htk).
    destruct (ShowInConsole t); [destruct (WithTime t)|]; exec;
      rewrite ?app_nil_r, ?createCalls_app, ?mkdirCalls_app, ?stdoutWrites_app,
        ?stderrWrites_app, ?fileWrites_app, ?Hcreate, ?Hmk, ?Hout, ?Herr, ?Hfw, ?Hclock;
      cbn [createCalls mkdirCalls stdoutWrites stderrWrites fileWrites app andb negb];
      rewrite ?app_nil_r.
    all: split_and!; try done; try (by right); try lia.
    all: try (unfold sameBut; cbn [files dirs next_fd clock ticks executable stat_err
                 mkdir_err create_err open_err write_err close_err];
              split_and!; try done; lia).
    all: try (split; [done|]; intros H; by apply Hexit in H).
Qed.

(** ** Outcomes and traces *)

Lemma call_args Join c : call Join c = WriteLog Join (callArgs c).1 (callArgs c).2.
Proof. by destruct c. Qed.

Lemma set_ticks_same w : set_ticks (ticks w) w = w.
Proof. by destruct w. Qed.

(** X3.  Only the answer "does not exist" of [os.Stat] makes the program
    create anything; every other answer is taken as presence.  When
    [os.Stat] fails on the directory with another error, or succeeds
    because a regular file has that name, [NewTwlc] returns its logger at
    once without calling [os.MkdirAll].  When [os.Stat] fails with another
    error on the log file of the day, [WriteLog] does not call [os.Create]
    and goes straight to [os.OpenFile], so the call returns exactly when
    the file opens. *)
Theorem Stat_answers_taken_as_presence (Join : string → string → string) :
  (∀ a b c d e f dir w err,
     stat_err w !! dir = Some err → notExist err = false →
     NewTwlc a b c d e f dir w
     = mkOutcome (Ret (mkTwlc a b c d e f dir "")) w [EvStat dir (Some err)])
  ∧ (∀ a b c d e f dir w,
       stat_err w !! dir = None → is_Some (files w !! dir) →
       NewTwlc a b c d e f dir w
       = mkOutcome (Ret (mkTwlc a b c d e f dir "")) w [EvStat dir None])
  ∧ (∀ t w sev msg err,
       SaveInLogFile t = true →
       let p := logPath Join (LogDir t) (nextNow w) in
       stat_err w !! p = Some err → notExist err = false →
       let o := WriteLog Join sev msg (mkState t w) in
       createCalls (events o) = []
       ∧ (result o = Ret tt ↔ open_err w !! p = None)).
Proof.
  split_and!.
  - intros a b c d e f dir w err Hstat Hne. rewrite NewTwlc_run.
    unfold reportedMissing, statAnswer. rewrite Hstat. cbn [os_IsNotExist]. by rewrite Hne.
  - intros a b c d e f dir w Hstat Hfile. rewrite NewTwlc_run.
    assert (pathExists (files w) (dirs w) dir = true) as Hex.
    { unfold pathExists. apply orb_true_iff. left. by apply bool_decide_eq_true. }
    rewrite reportedMissing_truthful, Hex by done. cbn [negb].
    by rewrite statAnswer_truthful_exists.
  - intros t w sev msg err Hsave p Hstat Hne o. subst o.
    destruct (WriteLog_on Join sev msg t w Hsave) as (_ & _ & Hcreate & _ & Hor & Hexit & _).
    fold p in Hcreate, Hexit.
    assert (reportedMissing w p = false) as Hmiss.
    { unfold reportedMissing, statAnswer. rewrite Hstat. cbn [os_IsNotExist]. by rewrite Hne. }
    rewrite Hmiss in Hcreate, Hexit. split; [done|]. split.
    + intros Hr. destruct (open_err w !! p) eqn:Ho; [|done].
      assert (result (WriteLog Join sev msg (mkState t w)) = Exit 1%Z) as Hx
        by (apply Hexit; right; eauto).
      congruence.
    + intros Ho. destruct Hor as [Hx | Hr]; [|done].
      apply Hexit in Hx as [[[=] _] | [? ?]]. congruence.
Qed.

(** X3 where the directory cannot be read, where a file has the name of
    the directory, and where the log file cannot be read. *)
Lemma Stat_answers_taken_as_presence_witness :
  NewTwlc true true false false false false "/var/log/app" hiddenWorld
  = mkOutcome (Ret plainLogger) hiddenWorld
      [EvStat "/var/log/app" (Some (mkError false "stat /var/log/app: permission denied"))]
  ∧ NewTwlc true true false false false false "/var/log/app.txt" hiddenWorld
    = mkOutcome (Ret (mkTwlc true true false false false false "/var/log/app.txt" ""))
        hiddenWorld [EvStat "/var/log/app.txt" None]
  ∧ createCalls (events (WriteLog unixJoin Info "started" (mkState plainLogger hiddenWorld)))
    = [].
Proof.
  destruct (Stat_answers_taken_as_presence unixJoin) as (Herr & Hfile & Hlog).
  split_and!.
  - apply (Herr true true false false false false "/var/log/app" hiddenWorld
             (mkError false "stat /var/log/app: permission denied")); reflexivity.
  - apply (Hfile true true false false false false "/var/log/app.txt" hiddenWorld);
      [reflexivity | vm_compute; eauto].
  - apply (Hlog plainLogger hiddenWorld Info "started"
             (mkError false ("stat " +:+ appLog +:+ ": permission denied")));
      reflexivity.
Defined.


(** X5.  [WriteLog] returns or ends the process with exit status 1; it
    never panics.  It ends the process exactly when file persistence is
    enabled and either the log file of the day is reported missing and
    cannot be created, or it cannot be opened. *)
Theorem WriteLog_fatal_exactly_when (Join : string → string → string) (t : Twlc)
    (w : World) (sev : MessageType) (msg : string) :
  let p := logPath Join (LogDir t) (nextNow w) in
  let o := WriteLog Join sev msg (mkState t w) in
  (result o = Ret tt ∨ result o = Exit 1%Z)
  ∧ (result o = Exit 1%Z
     ↔ SaveInLogFile t = true
       ∧ ((reportedMissing w p = true ∧ is_Some (create_err w !! p))
          ∨ is_Some (open_err w !! p))).
Proof.
  intros p o. subst o. destruct (SaveInLogFile t) eqn:Hsave.
  - destruct (WriteLog_on Join sev msg t w Hsave) as (_ & _ & _ & _ & Hor & Hexit & _).
    fold p in Hexit. split; [tauto|]. rewrite Hexit. tauto.
  - rewrite after_persist by done. destruct (ShowInConsole t); cbn [result].
    all: split; [by left|]. all: split; [done | by intros [[=] _]].
Qed.

(** X5 where the log file cannot be created, and where it cannot be
    opened. *)
Lemma WriteLog_fatal_exactly_when_witness :
  result (WriteLog unixJoin Info "started" (mkState plainLogger noCreateWorld)) = Exit 1%Z
  ∧ result (WriteLog unixJoin Info "started" (mkState plainLogger lockedWorld)) = Exit 1%Z.
Proof.
  split.
  - apply (WriteLog_fatal_exactly_when unixJoin plainLogger noCreateWorld Info "started").
    split; [reflexivity|]. left. split; [reflexivity|]. vm_compute. eauto.
  - apply (WriteLog_fatal_exactly_when unixJoin plainLogger lockedWorld Info "started").
    split; [reflexivity|]. right. vm_compute. eauto.
Defined.

Lemma set_ticks_same' w n : n = 0 → set_ticks (n + ticks w) w = w.
Proof. intros ->. by destruct w. Qed.

(** X6.  With file persistence disabled a sequence of calls of [WriteLog]
    and its shorthands never ends the process and touches nothing but the
    console and the clock: the receiver is unchanged, the world is the same
    but for the readings of the clock ([log.Printf] takes one per call when
    timestamps are on), and the events are exactly one console line per
    call, in call order, the [i]-th stamped with the [i]-th reading.  With
    console output disabled as well the calls do nothing at all. *)
Theorem console_only_trace (Join : string → string → string) (cs : list Call) (t : Twlc)
    (w : World) :
  SaveInLogFile t = false →
  let o := calls Join cs (mkState t w) in
  result o = Ret tt ∧ self (final o) = t
  ∧ world (final o)
    = set_ticks ((if ShowInConsole t && WithTime t then List.length cs else 0) + ticks w) w
  ∧ events o
    = (if ShowInConsole t
       then imap (λ i c, consoleEvent t (clock w (i + ticks w)) (callArgs c).1 (callArgs c).2)
              cs
       else [])
  ∧ (ShowInConsole t = false → o = mkOutcome (Ret tt) (mkState t w) []).
Proof.
  intros Hsave. cbv zeta.
  assert (∀ now now' mt msg, WithTime t = false
            → consoleEvent t now mt msg = consoleEvent t now' mt msg) as Hnow.
  { intros now now' mt msg H. unfold consoleEvent, consoleLine. by rewrite H. }
  revert w. induction cs as [|c cs IH]; intros w.
  - cbn [calls List.length imap]. unfold mret, M_MRet, M_ret.
    cbn [result final events self world].
    rewrite set_ticks_same' by (destruct (_ && _); reflexivity).
    by destruct (ShowInConsole t).
  - cbn [calls]. rewrite run_bind, call_args, after_persist by done.
    destruct (ShowInConsole t) eqn:Hshow; [destruct (WithTime t) eqn:Htime|].
    + destruct (IH (set_ticks (S (ticks w)) w)) as (Hr & Hs & Hw & He & _).
      destruct (calls Join cs _) as [r [t' w'] tr]. cbn [result final events self world] in *.
      subst. cbn [andb List.length imap ticks set_ticks clock app]. split_and!; [done..| | | done].
      * unfold set_ticks.
        cbn [files dirs next_fd clock ticks executable stat_err mkdir_err create_err
             open_err write_err close_err].
        f_equal. lia.
      * unfold nextNow. f_equal. apply imap_ext. intros i x _. cbn. do 2 f_equal. lia.
    + destruct (IH w) as (Hr & Hs & Hw & He & _).
      destruct (calls Join cs _) as [r [t' w'] tr]. cbn [result final events self world] in *.
      subst. cbn [andb List.length imap app]. split_and!; [done..| | done].
      f_equal. apply imap_ext. intros i x _. by apply Hnow.
    + destruct (IH w) as (Hr & Hs & Hw & He & Hall).
      rewrite (Hall eq_refl). cbn [result final events self world andb app].
      split_and!; [done..| | done | done]. by rewrite set_ticks_same'.
Qed.

(** X6 on two calls with timestamps, and on two calls without. *)
Lemma console_only_trace_witness :
  events (calls unixJoin [CallInfo "up"; CallError "down"] (mkState timedLogger tickingWorld))
  = [EvStderr ("2025/01/01 10:30:00 [INFO] up" +:+ NL);
     EvStderr ("2025/01/01 10:30:01 [ERROR] down" +:+ NL)]
  ∧ events (calls unixJoin [CallInfo "up"; CallError "down"]
              (mkState consoleLogger tickingWorld))
    = [EvStdout ("[INFO] " +:+ ESC +:+ "[34mup" +:+ ESC +:+ "[0m" +:+ NL);
       EvStdout ("[ERROR] " +:+ ESC +:+ "[31mdown" +:+ ESC +:+ "[0m" +:+ NL)].
Proof.
  split.
  - destruct (console_only_trace unixJoin [CallInfo "up"; CallError "down"] timedLogger
                tickingWorld eq_refl) as (_ & _ & _ & Hev & _).
    rewrite Hev. reflexivity.
  - destruct (console_only_trace unixJoin [CallInfo "up"; CallError "down"] consoleLogger
                tickingWorld eq_refl) as (_ & _ & _ & Hev & _).
    rewrite Hev. reflexivity.
Defined.

Lemma consoleWrites_split tr :
  (stdoutWrites tr = [] → consoleWrites tr = stderrWrites tr)
  ∧ (stderrWrites tr = [] → consoleWrites tr = stdoutWrites tr).
Proof.
  induction tr as [|[] tr [IH1 IH2]]; cbn [consoleWrites stdoutWrites stderrWrites];
    split; intros H; try done; first [by apply IH1 | by apply IH2 | f_equal; auto].
Qed.

(** A line of the standard logger, and of the logger of the file block. *)
Lemma logEntry_LstdFlags now file line s :
  logEntry LstdFlags now file line s
  = stamp now +:+ s +:+ (if endsWithNewline s then "" else NL).
Proof.
  unfold logEntry, formatHeader, stamp. cbn [Ldate Ltime Lshortfile LstdFlags].
  by rewrite !append_assoc, append_nil_l.
Qed.

Lemma logEntry_fileFlags t now s :
  logEntry (fileFlags t) now "twlc.go" 62 s
  = stamp now +:+ (if WithTime t then "twlc.go:62: " else "") +:+ s
    +:+ (if endsWithNewline s then "" else NL).
Proof.
  unfold logEntry, formatHeader, stamp, fileFlags.
  destruct (WithTime t); cbn [Ldate Ltime Lshortfile LstdFlags LstdFlags_or_Lshortfile];
    by rewrite !append_assoc, ?append_nil_l.
Qed.

Lemma endsWithNewline_tag sev msg :
  endsWithNewline (Sprintf_tag sev msg) = endsWithNewline msg.
Proof.
  unfold Sprintf_tag. destruct msg as [|c msg].
  - rewrite append_nil_r. change ("[" +:+ sev +:+ "] ") with (("[" +:+ sev) +:+ "] ").
    by rewrite endsWithNewline_append.
  - rewrite <- !append_assoc. by apply endsWithNewline_append.
Qed.

(** X7.  A call returns or ends the process with exit status 1, and it
    returns when file persistence is disabled.  The console line of a call
    that returns goes to one standard stream only: to standard error,
    behind the date and the time, when timestamps are on ([log.Printf]),
    and to standard output, bare, when they are off ([fmt.Printf]).  When
    the call ends the process nothing has reached standard output, and
    standard error holds the one timestamped diagnostic, whatever the
    console settings of the logger. *)
Theorem console_streams (Join : string → string → string) (t : Twlc) (w : World)
    (sev : MessageType) (msg : string) :
  let o := WriteLog Join sev msg (mkState t w) in
  let text := Sprintf_tag (forConsole t sev msg).1 (forConsole t sev msg).2 in
  (result o = Ret tt ∨ result o = Exit 1%Z)
  ∧ (SaveInLogFile t = false → result o = Ret tt)
  ∧ (result o = Ret tt →
     stdoutWrites (events o)
     = (if ShowInConsole t && negb (WithTime t) then [text +:+ NL] else [])
     ∧ ∃ now, stderrWrites (events o)
              = (if ShowInConsole t && WithTime t
                 then [stamp now +:+ text +:+ (if endsWithNewline text then "" else NL)]
                 else []))
  ∧ (result o = Exit 1%Z →
       stdoutWrites (events o) = []
       ∧ ∃ now what err,
           stderrWrites (events o)
           = [stamp now +:+ (what +:+ errorText err)
              +:+ (if endsWithNewline (what +:+ errorText err) then "" else NL)]).
Proof.
  intros o text. subst o. destruct (SaveInLogFile t) eqn:Hsave.
  - destruct (WriteLog_on Join sev msg t w Hsave) as (_ & _ & _ & _ & Hor & _ & Hexit & Hret).
    split_and!; [tauto | done | |].
    + intros Hr. destruct (Hret Hr) as (_ & _ & Hout & Herr & _). rewrite Hout, Herr.
      unfold consoleLine. fold text.
      destruct (ShowInConsole t); [destruct (WithTime t)|]; cbn [andb negb].
      * split; [done|]. eexists. by rewrite logEntry_LstdFlags.
      * split; [done|]. by exists (nextNow w).
      * split; [done|]. by exists (nextNow w).
    + intros Hr. destruct (Hexit Hr) as (Hout & what & err & Herr). split; [done|].
      exists (clock w (S (ticks w))), what, err. by rewrite Herr, logEntry_LstdFlags.
  - rewrite after_persist by done. unfold consoleEvent, consoleLine. fold text.
    destruct (ShowInConsole t); [destruct (WithTime t)|];
      cbn [result events stdoutWrites stderrWrites andb negb];
      (split_and!; [by left | done | | done]); intros _.
    + split; [done|]. eexists. by rewrite logEntry_LstdFlags.
    + split; [done|]. by exists (nextNow w).
    + split; [done|]. by exists (nextNow w).
Qed.

(** X7 with timestamps, without, and on a fatal error. *)
Lemma console_streams_witness :
  (stdoutWrites (events (WriteLog unixJoin Info "up" (mkState stampedLogger quietWorld))) = []
   ∧ ∃ now, stderrWrites (events (WriteLog unixJoin Info "up"
                                    (mkState stampedLogger quietWorld)))
            = [stamp now +:+ "[INFO] up" +:+ NL])
  ∧ stdoutWrites (events (WriteLog unixJoin Info "up" (mkState plainLogger quietWorld)))
    = ["[INFO] up" +:+ NL]
  ∧ stdoutWrites (events (WriteLog unixJoin Info "up" (mkState plainLogger lockedWorld)))
    = [].
Proof.
  destruct (console_streams unixJoin stampedLogger quietWorld Info "up") as (_ & _ & Hret & _).
  destruct (console_streams unixJoin plainLogger quietWorld Info "up") as (_ & _ & Hplain & _).
  destruct (console_streams unixJoin plainLogger lockedWorld Info "up") as (_ & _ & _ & Hexit).
  split_and!.
  - apply (Hret eq_refl).
  - apply (Hret eq_refl).
  - apply (Hplain eq_refl).
  - apply (Hexit eq_refl).
Defined.

(** X8.  A persisting call that returns reads the clock separately for
    each thing it dates, in this order: first for the name of the log
    file, then for the timestamp of the entry, then, when the console line
    is timestamped, for that line.  The entry therefore carries a later
    reading than the one its file is named after. *)
Theorem clock_readings (Join : string → string → string) (t : Twlc) (w : World)
    (sev : MessageType) (msg : string) :
  SaveInLogFile t = true →
  let o := WriteLog Join sev msg (mkState t w) in
  result o = Ret tt →
  let n := ticks w in
  LogFilePath (self (final o)) = logPath Join (LogDir t) (clock w n)
  ∧ fileWrites (events o)
    = [(logPath Join (LogDir t) (clock w n),
        logEntry (fileFlags t) (clock w (1 + n)) "twlc.go" 62 (Sprintf_tag sev msg))]
  ∧ consoleWrites (events o)
    = (if ShowInConsole t then [consoleLine t (clock w (2 + n)) sev msg] else [])
  ∧ ticks (world (final o)) = (if ShowInConsole t && WithTime t then 3 else 2) + n
  ∧ clock (world (final o)) = clock w.
Proof.
  intros Hsave o Hr n. subst o n.
  destruct (WriteLog_on Join sev msg t w Hsave) as (Hsame & _ & _ & _ & _ & _ & _ & Hret).
  destruct (Hret Hr) as (Hticks & Hfw & Hout & Herr & _).
  destruct Hsame as (_ & _ & Hclock & _).
  split_and!; [|done| |done|done].
  - rewrite WriteLog_self, Hsave. reflexivity.
  - destruct (consoleWrites_split (events (WriteLog Join sev msg (mkState t w))))
      as [Hse Hso].
    destruct (ShowInConsole t); [destruct (WithTime t)|]; cbn [andb negb] in *.
    + by rewrite Hse, Herr.
    + by rewrite Hso, Hout.
    + by rewrite Hso, Hout.
Qed.

(** X8 at midnight: the file of 1 January receives an entry stamped
    2 January. *)
Lemma clock_readings_witness :
  fileWrites (events (WriteLog unixJoin Info "up" (mkState plainLogger turningWorld)))
  = [("/var/log/app/twlc_20250101.log", "2025/01/02 00:00:00 [INFO] up" +:+ NL)].
Proof.
  destruct (clock_readings unixJoin plainLogger turningWorld Info "up" eq_refl eq_refl)
    as (_ & Hfw & _).
  rewrite Hfw. reflexivity.
Defined.

(** X9.  [WriteLog] changes no file other than the log file of the day,
    creates no directory and never calls [os.MkdirAll]: a log directory
    removed after construction is not made again.  With file persistence
    disabled it changes no file at all, opens none and creates none. *)
Theorem WriteLog_touches_one_file (Join : string → string → string) (t : Twlc) (w : World)
    (sev : MessageType) (msg : string) :
  let p := logPath Join (LogDir t) (nextNow w) in
  let o := WriteLog Join sev msg (mkState t w) in
  let w' := world (final o) in
  (∀ q, q ≠ p → files w' !! q = files w !! q)
  ∧ dirs w' = dirs w
  ∧ mkdirCalls (events o) = []
  ∧ (SaveInLogFile t = false →
       files w' = files w ∧ next_fd w' = next_fd w
       ∧ fileWrites (events o) = [] ∧ createCalls (events o) = []
       ∧ held (events o) [] = []).
Proof.
  intros p o w'. subst o w'. destruct (SaveInLogFile t) eqn:Hsave.
  - destruct (WriteLog_on Join sev msg t w Hsave) as (Hsame & _ & _ & Hmk & _).
    destruct Hsame as (Hq & Hd & _). by split_and!.
  - rewrite after_persist by done. unfold consoleEvent.
    by destruct (ShowInConsole t); [destruct (WithTime t)|].
Qed.

(** X9 on a machine that holds other files and has lost the directory of
    the logger. *)
Lemma WriteLog_touches_one_file_witness :
  let o := WriteLog unixJoin Info "up" (mkState plainLogger usedWorld) in
  files (world (final o)) !! "/var/log/app/notes.txt" = Some "keep"
  ∧ files (world (final o)) !! "/var/log/app/twlc_20241231.log" = Some "old"
  ∧ dirs (world (final o)) = ∅.
Proof.
  destruct (WriteLog_touches_one_file unixJoin plainLogger usedWorld Info "up")
    as (Hq & Hd & _).
  split_and!.
  - rewrite Hq; [reflexivity | vm_compute; discriminate].
  - rewrite Hq; [reflexivity | vm_compute; discriminate].
  - rewrite Hd. reflexivity.
Defined.



(** X11.  Entries reach the log file in call order.  When file
    persistence is enabled, the operations on the log file of the day
    succeed and the clock stays on one date, any sequence of calls of
    [WriteLog] and its shorthands returns, changes no other file, and
    leaves in the log file what was there followed by one entry per call,
    in the order of the calls, the [i]-th stamped with the reading of the
    clock its own logger took. *)
Theorem same_day_sequence (Join : string → string → string) (cs : list Call) (t : Twlc)
    (w : World) :
  SaveInLogFile t = true →
  let p := logPath Join (LogDir t) (nextNow w) in
  ioOK w p →
  (∀ n, ticks w ≤ n → dateOf (clock w n) = dateOf (nextNow w)) →
  let o := calls Join cs (mkState t w) in
  result o = Ret tt
  ∧ (∀ q, q ≠ p → files (world (final o)) !! q = files w !! q)
  ∧ default "" (files (world (final o)) !! p)
    = default "" (files w !! p)
      +:+ foldr String.append ""
            (imap (λ i c, fileEntry t (clock w (1 + readingsPerCall t * i + ticks w)) c) cs).
Proof.
  intros Hsave. cbv zeta. revert t w Hsave.
  induction cs as [|c cs IH]; intros t w Hsave Hok Hdate.
  - cbn [calls imap foldr]. unfold mret, M_MRet, M_ret. cbn [result final world].
    by rewrite append_nil_r.
  - set (p := logPath Join (LogDir t) (nextNow w)) in *.
    cbn [calls]. rewrite run_bind, call_args.
    destruct (WriteLog_ok Join (callArgs c).1 (callArgs c).2 t w Hsave Hok)
      as (w1 & tr1 & Ho & _).
    destruct (WriteLog_on Join (callArgs c).1 (callArgs c).2 t w Hsave)
      as (Hsame & _ & _ & _ & _ & _ & _ & Hret).
    fold p in Ho, Hsame, Hret. rewrite Ho in Hsame, Hret |- *.
    cbn [result final world] in Hsame, Hret.
    destruct (Hret eq_refl) as (Hticks & _ & _ & _ & Hfile).
    destruct Hok as (Hstat & Hcreate & Hopen & Hwrite).
    specialize (Hfile Hstat Hwrite).
    destruct Hsame as (Hq & _ & Hclock & _ & Hse & _ & Hce & Hoe & Hwe & _).
    fold (readingsPerCall t) in Hticks.
    assert (logPath Join (LogDir (withLogFilePath t p)) (nextNow w1) = p) as Hp.
    { unfold p, logPath. cbn [LogDir withLogFilePath]. f_equal. f_equal. f_equal.
      apply formatDate_dateOf. unfold nextNow at 1. rewrite Hclock. apply Hdate.
      rewrite Hticks. lia. }
    destruct (IH (withLogFilePath t p) w1 Hsave) as (Hr & Hq2 & Hfile2).
    { rewrite Hp. unfold ioOK. by rewrite Hse, Hce, Hoe, Hwe. }
    { intros n Hn. unfold nextNow. rewrite Hclock, !Hdate; [done | lia | lia]. }
    rewrite Hp in Hq2, Hfile2.
    destruct (calls Join cs (mkState (withLogFilePath t p) w1)) as [r [t2 w2] tr2].
    cbn [result final world] in *. subst r. split_and!; [done | |].
    + intros q Hne. by rewrite Hq2, Hq.
    + rewrite Hfile2, Hfile. cbn [from_option imap foldr]. unfold id.
      rewrite append_assoc. f_equal.
      replace (1 + readingsPerCall t * 0 + ticks w) with (S (ticks w)) by lia.
      change (fileEntry t (clock w (S (ticks w))) c)
        with (logEntry (fileFlags t) (clock w (S (ticks w))) "twlc.go" 62
                (Sprintf_tag (callArgs c).1 (callArgs c).2)).
      f_equal. f_equal. apply imap_ext. intros i x _. cbn.
      change (readingsPerCall (withLogFilePath t p)) with (readingsPerCall t).
      change (fileEntry (withLogFilePath t p)) with (fileEntry t).
      rewrite Hclock, Hticks. do 2 f_equal. lia.
Qed.

(** X11 on three calls of one morning, the clock advancing by a second at
    each reading. *)
Lemma same_day_sequence_witness :
  files (world (final (calls unixJoin [CallInfo "one"; CallError "two"; CallDebug "three"]
                         (mkState plainLogger tickingWorld)))) !! appLog
  = Some ("2025/01/01 10:30:01 [INFO] one" +:+ NL
          +:+ "2025/01/01 10:30:03 [ERROR] two" +:+ NL
          +:+ "2025/01/01 10:30:05 [DEBUG] three" +:+ NL).
Proof.
  destruct (same_day_sequence unixJoin [CallInfo "one"; CallError "two"; CallDebug "three"]
              plainLogger tickingWorld eq_refl) as (_ & _ & H).
  - by repeat split.
  - intros n _. reflexivity.
  - change (logPath unixJoin (LogDir plainLogger) (nextNow tickingWorld)) with appLog in H.
    destruct (files _ !! appLog) as [content|] eqn:Hc.
    + cbn [from_option] in H. unfold id in H. rewrite H. reflexivity.
    + vm_compute in Hc. discriminate Hc.
Defined.

(** X12.  Every entry of the log file starts with the date and the time,
    whether [WithTime] is set or not; [WithTime] only adds the place of the
    [Printf] in the source of the package, always [twlc.go:62], never the
    place of the caller.  Then come the tag and the message as they were
    passed, and a newline unless the message ends with one.  A returning
    call with file persistence enabled writes exactly one such entry, to
    the log file of the day. *)
Theorem file_entry_shape (Join : string → string → string) (t : Twlc) (w : World)
    (sev : MessageType) (msg : string) :
  let p := logPath Join (LogDir t) (nextNow w) in
  let o := WriteLog Join sev msg (mkState t w) in
  let entry now :=
    stamp now +:+ (if WithTime t then "twlc.go:62: " else "")
    +:+ ("[" +:+ sev +:+ "] " +:+ msg) +:+ (if endsWithNewline msg then "" else NL) in
  (∀ path data, (path, data) ∈ fileWrites (events o) →
     path = p ∧ data = entry (clock w (1 + ticks w)))
  ∧ (SaveInLogFile t = true → result o = Ret tt →
       fileWrites (events o) = [(p, entry (clock w (1 + ticks w)))])
  ∧ (SaveInLogFile t = true → create_err w !! p = None → open_err w !! p = None →
       result o = Ret tt).
Proof.
  intros p o entry. subst o.
  assert (logEntry (fileFlags t) (clock w (S (ticks w))) "twlc.go" 62 (Sprintf_tag sev msg)
          = entry (clock w (1 + ticks w))) as Hentry.
  { unfold entry. by rewrite logEntry_fileFlags, endsWithNewline_tag. }
  destruct (SaveInLogFile t) eqn:Hsave.
  - destruct (WriteLog_on Join sev msg t w Hsave)
      as (_ & _ & _ & _ & Hor & Hexit & _ & Hret).
    fold p in Hexit, Hret. rewrite Hentry in Hret.
    pose proof (WriteLog_cases Join sev msg t w) as Hcases. cbv zeta in Hcases.
    rewrite Hsave in Hcases. fold p in Hcases. split_and!.
    + intros path data Hin.
      destruct Hor as [Hx | Hr].
      * destruct Hcases as [_ [(se & e & now & _ & _ & _ & Hev)
          | [(pre & e & now & _ & Hpre & _ & Hev) | (?&?&?&?&?&?& Hr & _)]]];
          [| |congruence]; rewrite Hev in Hin.
        -- cbn in Hin. by apply elem_of_nil in Hin.
        -- rewrite fileWrites_app in Hin.
           destruct (createdOrFound_quiet p pre Hpre) as (_ & Hq & _). rewrite Hq in Hin.
           cbn in Hin. by apply elem_of_nil in Hin.
      * destruct (Hret Hr) as (_ & Hfw & _). rewrite Hfw in Hin.
        by apply list_elem_of_singleton in Hin as [= -> ->].
    + intros _ Hr. by destruct (Hret Hr) as (_ & Hfw & _).
    + intros _ Hc Ho. destruct Hor as [Hx | Hr]; [|done].
      apply Hexit in Hx as [[_ [? ?]] | [? ?]]; congruence.
  - split_and!; [|done..]. intros path data Hin. rewrite after_persist in Hin by done.
    unfold consoleEvent in Hin.
    destruct (ShowInConsole t); [destruct (WithTime t)|]; cbn in Hin;
      by apply elem_of_nil in Hin.
Qed.

(** X12 without and with [WithTime]. *)
Lemma file_entry_shape_witness :
  fileWrites (events (WriteLog unixJoin Info "up" (mkState plainLogger quietWorld)))
  = [(appLog, "2025/01/01 10:30:00 [INFO] up" +:+ NL)]
  ∧ fileWrites (events (WriteLog unixJoin Info "up" (mkState stampedLogger quietWorld)))
    = [(appLog, "2025/01/01 10:30:00 twlc.go:62: [INFO] up" +:+ NL)].
Proof.
  destruct (file_entry_shape unixJoin plainLogger quietWorld Info "up") as (_ & Hplain & Hr1).
  destruct (file_entry_shape unixJoin stampedLogger quietWorld Info "up")
    as (_ & Hstamped & Hr2).
  split.
  - rewrite Hplain; [reflexivity.. |]. apply Hr1; reflexivity.
  - rewrite Hstamped; [reflexivity.. |]. apply Hr2; reflexivity.
Defined.
